(** * LocaLoop: the nearby-places discovery workflow

    A shallow embedding of the two screens that query the places provider,
    [MapsScreen] (src/app/(tabs)/maps.tsx) and [DashboardScreen]
    (src/app/(tabs)/profile.tsx, second half), together with the properties
    the specification states about them.

    Conventions of the embedding:
    - a React state variable is a field of the screen record; [setX v] writes
      the field;
    - a handler is defined inside the component function and therefore reads
      the state values of the render it was created in.  Every handler below
      takes that render as its first argument [r]; a user event is dispatched
      to the handler of the last committed render;
    - an [async] function is cut at each [await] whose result it uses: the
      part before the [await] registers a pending operation carrying the
      variables the rest of the function still reads, the part after it runs
      when the operation settles;
    - [Alert.alert], [console.error] and [animateToRegion] append to an output
      log. *)

From Stdlib Require Import String Ascii List Bool Arith Lia PrimFloat.
Import ListNotations.
Local Open Scope string_scope.
Local Open Scope bool_scope.
Local Open Scope nat_scope.

(** ** JavaScript strings

    A string is a sequence of code units.  [Ascii.ascii] holds the code units
    0..255, and on that range [toLowerCase] and [trim] are exactly the
    functions below (ECMAScript WhiteSpace and LineTerminator below 256 are
    TAB, LF, VT, FF, CR, SP and NBSP; the letters with a lower-case mapping
    are A-Z, U+00C0-U+00D6 and U+00D8-U+00DE). *)
Module JS.

Definition isWhiteSpace (c : ascii) : bool :=
  let n := nat_of_ascii c in
  ((9 <=? n) && (n <=? 13)) || (n =? 32) || (n =? 160).

Definition lowerUnit (c : ascii) : ascii :=
  let n := nat_of_ascii c in
  if ((65 <=? n) && (n <=? 90))
     || ((192 <=? n) && (n <=? 214))
     || ((216 <=? n) && (n <=? 222))
  then ascii_of_nat (n + 32)
  else c.

Fixpoint toLowerCase (s : string) : string :=
  match s with
  | EmptyString => EmptyString
  | String c r => String (lowerUnit c) (toLowerCase r)
  end.

Fixpoint trimStart (s : string) : string :=
  match s with
  | EmptyString => EmptyString
  | String c r => if isWhiteSpace c then trimStart r else s
  end.

Fixpoint trimEnd (s : string) : string :=
  match s with
  | EmptyString => EmptyString
  | String c r =>
      match trimEnd r with
      | EmptyString => if isWhiteSpace c then EmptyString else String c EmptyString
      | r' => String c r'
      end
  end.

Definition trim (s : string) : string := trimEnd (trimStart s).

(** [s.includes(sub)] *)
Fixpoint includes (s sub : string) : bool :=
  String.prefix sub s
  || match s with
     | EmptyString => false
     | String _ r => includes r sub
     end.

(** ToBoolean on a string: only the empty string is falsy. *)
Definition truthy (s : string) : bool :=
  match s with
  | EmptyString => false
  | String _ _ => true
  end.

(** [l.slice(0, n)] for [0 <= n]. *)
Definition slice0 {A : Type} (n : nat) (l : list A) : list A := firstn n l.

(** [parts.join(sep)] *)
Fixpoint join (sep : string) (parts : list string) : string :=
  match parts with
  | [] => ""
  | [p] => p
  | p :: rest => p ++ sep ++ join sep rest
  end.

End JS.

Arguments JS.slice0 : simpl never.

(** ** The records of the provider's response *)

Record LatLng := { lat : float; lng : float }.

(** [geometry: { location: { lat, lng } }] *)
Module Geo.
Record t := { location : LatLng }.
End Geo.

(** [interface Place], declared identically in both screens.  An optional
    property is an [option]; [opening_hours] holds its [open_now]. *)
Record Place := {
  place_id : string;
  name : string;
  vicinity : string;
  geometry : Geo.t;
  rating : option float;
  types : list string;
  opening_hours : option bool
}.

(** The parsed body: [data.status] and [data.results] ([None]: the property
    is absent). *)
Record PlacesData := {
  status : string;
  results : option (list Place)
}.

(** The parameters interpolated into the nearby-search URL. *)
Record SearchUrl := {
  url_location : float * float;
  url_radius : nat;
  url_type : string;
  url_key : string
}.

Definition GOOGLE_PLACES_API_KEY : string := "process.env.GOOGLE_PLACES_API_KEY".

(** How an awaited operation settles.  For a query, [Rejects] stands for a
    rejection of [fetch] or of [response.json()]. *)
Inductive Settled :=
| Rejects                                     (* the promise rejects *)
| PermissionResponse (granted_status : string) (* requestForegroundPermissionsAsync *)
| LocationObject (latitude longitude : float)  (* getCurrentPositionAsync *)
| JsonBody (data : PlacesData).                (* fetch, then response.json() *)

(** What a screen emits besides its own state. *)
Inductive Output :=
| AlertShown (title message : string)
| ConsoleError (label : string)
| AnimateToRegion (latitude longitude latitudeDelta longitudeDelta : float) (ms : nat).

(** ** Effects of a handler

    A handler runs on a world: the screen's React state, the operations that
    are pending, and the output log (oldest entry first).  It completes
    normally or throws; what it wrote before throwing stays written. *)
Section Effects.
Variables S P : Type.

Record World := mkWorld {
  screen : S;
  inflight : list P;
  log : list Output
}.

Inductive Completion (A : Type) :=
| Normal (a : A)
| Throw.

Definition M (A : Type) : Type := World -> Completion A * World.

Definition ret {A} (a : A) : M A := fun w => (Normal A a, w).

Definition bind {A B} (m : M A) (k : A -> M B) : M B :=
  fun w =>
    match m w with
    | (Normal _ a, w') => k a w'
    | (Throw _, w') => (Throw B, w')
    end.

Definition throw {A} : M A := fun w => (Throw A, w).

(** [try { body } catch (error) { handler }] *)
Definition tryCatch {A} (body handler : M A) : M A :=
  fun w =>
    match body w with
    | (Normal _ a, w') => (Normal A a, w')
    | (Throw _, w') => handler w'
    end.

(** [try { body } finally { fin }] *)
Definition tryFinally {A} (body : M A) (fin : M unit) : M A :=
  fun w =>
    match body w with
    | (c, w') =>
        match fin w' with
        | (Normal _ _, w'') => (c, w'')
        | (Throw _, w'') => (Throw A, w'')
        end
    end.

(** A state setter: [setX(v)] as [setState (fun s => s with x := v)]. *)
Definition setState (f : S -> S) : M unit :=
  fun w => (Normal unit tt, mkWorld (f (screen w)) (inflight w) (log w)).

Definition emit (o : Output) : M unit :=
  fun w => (Normal unit tt, mkWorld (screen w) (inflight w) (log w ++ [o])%list).

(** Start an operation and suspend on it. *)
Definition suspend (p : P) : M unit :=
  fun w => (Normal unit tt, mkWorld (screen w) (inflight w ++ [p])%list (log w)).

(** The state as it is when the handler runs (not the render's values);
    used only for [mapRef.current]. *)
Definition current : M S := fun w => (Normal S (screen w), w).

Definition exec {A} (m : M A) (w : World) : World := snd (m w).

(** The pending list without its [i]-th entry. *)
Fixpoint removeAt (i : nat) (l : list P) : list P :=
  match l, i with
  | [], _ => []
  | _ :: t, O => t
  | h :: t, Datatypes.S j => h :: removeAt j t
  end.

Definition settled (i : nat) (w : World) : World :=
  mkWorld (screen w) (removeAt i (inflight w)) (log w).
End Effects.

Arguments mkWorld {S P}.
Arguments screen {S P}.
Arguments inflight {S P}.
Arguments log {S P}.
Arguments Normal {A}.
Arguments Throw {A}.
Arguments ret {S P A}.
Arguments bind {S P A B}.
Arguments throw {S P A}.
Arguments tryCatch {S P A}.
Arguments tryFinally {S P A}.
Arguments setState {S P}.
Arguments emit {S P}.
Arguments suspend {S P}.
Arguments current {S P}.
Arguments exec {S P A}.
Arguments removeAt {P}.
Arguments settled {S P}.

Declare Scope js_scope.
Delimit Scope js_scope with js.
Notation "x <- m ;; k" := (bind m (fun x => k))
  (at level 61, m at next level, right associativity) : js_scope.
Notation "m ;; k" := (bind m (fun _ => k))
  (at level 61, right associativity) : js_scope.

Definition alert {S P} (title message : string) : M S P unit :=
  emit (AlertShown title message).

Definition console_error {S P} (label : string) : M S P unit :=
  emit (ConsoleError label).

(** The value of an [await]: the result, or the rejection is thrown. *)
Definition awaitPermission {S P} (o : Settled) : M S P string :=
  match o with
  | PermissionResponse st => ret st
  | _ => throw
  end.

Definition awaitPosition {S P} (o : Settled) : M S P (float * float) :=
  match o with
  | LocationObject la lo => ret (la, lo)
  | _ => throw
  end.

(** [await fetch(url)] then [await response.json()]. *)
Definition awaitJson {S P} (o : Settled) : M S P PlacesData :=
  match o with
  | JsonBody data => ret data
  | _ => throw
  end.

(** [data.results] as the receiver of a method call: a TypeError when the
    property is absent. *)
Definition resultsOf {S P} (data : PlacesData) : M S P (list Place) :=
  match results data with
  | Some rs => ret rs
  | None => throw
  end.

(** ** MapsScreen (src/app/(tabs)/maps.tsx) *)
Module Maps.
Local Open Scope js_scope.

(** ['restaurant' | 'cafe'] *)
Inductive PlaceType := restaurant | cafe.

Definition typeString (t : PlaceType) : string :=
  match t with
  | restaurant => "restaurant"
  | cafe => "cafe"
  end.

Record LocationCoords := {
  latitude : float;
  longitude : float;
  latitudeDelta : float;
  longitudeDelta : float
}.

(** The [useState] variables of the component. *)
Record Screen := {
  location : option LocationCoords;
  loading : bool;
  errorMsg : option string;
  places : list Place;
  loadingPlaces : bool;
  selectedType : PlaceType
}.

Definition initial : Screen :=
  {| location := None; loading := true; errorMsg := None; places := [];
     loadingPlaces := false; selectedType := restaurant |}.

(** Where an [async] function is suspended.  [r] is the render whose closure
    the function runs in. *)
Inductive Pending :=
| EffectPermission (r : Screen)   (* the effect, at requestForegroundPermissionsAsync *)
| EffectPosition (r : Screen)     (* the effect, at getCurrentPositionAsync *)
| CenterPosition (r : Screen)     (* centerOnUserLocation, at getCurrentPositionAsync *)
| Fetching (url : SearchUrl).     (* fetchNearbyPlaces, at fetch(url) / response.json() *)

Definition W : Type := World Screen Pending.
Definition Task : Type -> Type := M Screen Pending.

Definition setLocation (v : option LocationCoords) : Task unit :=
  setState (fun s => {| location := v; loading := loading s; errorMsg := errorMsg s;
                        places := places s; loadingPlaces := loadingPlaces s;
                        selectedType := selectedType s |}).
Definition setLoading (v : bool) : Task unit :=
  setState (fun s => {| location := location s; loading := v; errorMsg := errorMsg s;
                        places := places s; loadingPlaces := loadingPlaces s;
                        selectedType := selectedType s |}).
Definition setErrorMsg (v : option string) : Task unit :=
  setState (fun s => {| location := location s; loading := loading s; errorMsg := v;
                        places := places s; loadingPlaces := loadingPlaces s;
                        selectedType := selectedType s |}).
Definition setPlaces (v : list Place) : Task unit :=
  setState (fun s => {| location := location s; loading := loading s; errorMsg := errorMsg s;
                        places := v; loadingPlaces := loadingPlaces s;
                        selectedType := selectedType s |}).
Definition setLoadingPlaces (v : bool) : Task unit :=
  setState (fun s => {| location := location s; loading := loading s; errorMsg := errorMsg s;
                        places := places s; loadingPlaces := v;
                        selectedType := selectedType s |}).
Definition setSelectedType (v : PlaceType) : Task unit :=
  setState (fun s => {| location := location s; loading := loading s; errorMsg := errorMsg s;
                        places := places s; loadingPlaces := loadingPlaces s;
                        selectedType := v |}).

(** *** fetchNearbyPlaces *)

(** Up to [await fetch(url)]. *)
Definition fetchNearbyPlaces (lat lng : float) (type : PlaceType) : Task unit :=
  setLoadingPlaces true ;;
  let radius := 5000 in
  let url := {| url_location := (lat, lng); url_radius := radius;
                url_type := typeString type; url_key := GOOGLE_PLACES_API_KEY |} in
  suspend (Fetching url).

(** From the [await] to the end of the function. *)
Definition fetchNearbyPlaces_resume (o : Settled) : Task unit :=
  tryFinally
    (tryCatch
       (data <- awaitJson o ;;
        if String.eqb (status data) "OK" then
          rs <- resultsOf data ;;
          setPlaces (JS.slice0 20 rs)
        else
          console_error "Places API error:" ;;
          alert "Error" "Failed to fetch nearby places. Please check your API key.")
       (console_error "Fetch places error:" ;;
        alert "Error" "Failed to fetch nearby places"))
    (setLoadingPlaces false).

(** *** The mount effect ([useEffect] without a dependency list) *)

Definition effect (r : Screen) : Task unit :=
  suspend (EffectPermission r).

Definition effect_catch : Task unit :=
  setErrorMsg (Some "Failed to get location") ;;
  setLoading false ;;
  console_error "Location error:".

Definition effect_afterPermission (r : Screen) (o : Settled) : Task unit :=
  tryCatch
    (st <- awaitPermission o ;;
     if negb (String.eqb st "granted") then
       setErrorMsg (Some "Permission to access location was denied") ;;
       setLoading false
     else
       suspend (EffectPosition r))
    effect_catch.

Definition coordsOf (pos : float * float) : LocationCoords :=
  {| latitude := fst pos; longitude := snd pos;
     latitudeDelta := 0x1.999999999999ap-5%float;   (* 0.05 *)
     longitudeDelta := 0x1.999999999999ap-5%float |}.

Definition effect_afterPosition (r : Screen) (o : Settled) : Task unit :=
  tryCatch
    (pos <- awaitPosition o ;;
     let coords := coordsOf pos in
     setLocation (Some coords) ;;
     setLoading false ;;
     fetchNearbyPlaces (latitude coords) (longitude coords) (selectedType r))
    effect_catch.

(** *** The views *)

Inductive Action :=
| PressRetry
| PressType (t : PlaceType)
| PressRecenter
| PressCard (i : nat).   (* the card of [places[i]] *)

Record Button := { label : string; onPress : Action }.

Inductive View :=
| LoadingContainer (loadingText : string)
| ErrorContainer (errorTitle errorText : string) (retryButton : Button)
| Container (filterButtons : list Button) (markers : list Place)
            (loadingOverlay : bool) (recenterButton : Button) (cards : list Button).

(** [errorMsg || fallback], and the truthiness of [errorMsg]. *)
Definition errorMsg_truthy (e : option string) : bool :=
  match e with
  | Some s => JS.truthy s
  | None => false
  end.

Definition orElse (e : option string) (fallback : string) : string :=
  match e with
  | Some s => if JS.truthy s then s else fallback
  | None => fallback
  end.

Definition render (s : Screen) : View :=
  if loading s then LoadingContainer "Getting your location..."
  else if errorMsg_truthy (errorMsg s)
          || match location s with None => true | Some _ => false end
  then ErrorContainer "Location Access Required"
         (orElse (errorMsg s) "Unable to access your location")
         {| label := "Try Again"; onPress := PressRetry |}
  else Container
         [ {| label := "Restaurants"; onPress := PressType restaurant |};
           {| label := "Cafes"; onPress := PressType cafe |} ]   (* labels without their emoji *)
         (places s)
         (loadingPlaces s)
         {| label := "recenter"; onPress := PressRecenter |}
         (map (fun ip => {| label := name (snd ip); onPress := PressCard (fst ip) |})
              (combine (seq 0 (length (places s))) (places s))).

(** [mapRef.current?.animateToRegion(region, ms)]: the ref is set while the
    [MapView] is mounted. *)
Definition animateToRegion (c : LocationCoords) (ms : nat) : Task unit :=
  s <- current ;;
  match render s with
  | Container _ _ _ _ _ =>
      emit (AnimateToRegion (latitude c) (longitude c)
                            (latitudeDelta c) (longitudeDelta c) ms)
  | _ => ret tt
  end.

(** *** The handlers *)

Definition handleTypeChange (r : Screen) (type : PlaceType) : Task unit :=
  setSelectedType type ;;
  match location r with
  | Some loc => fetchNearbyPlaces (latitude loc) (longitude loc) type
  | None => ret tt
  end.

Definition centerOnUserLocation (r : Screen) : Task unit :=
  suspend (CenterPosition r).

Definition centerOnUserLocation_resume (r : Screen) (o : Settled) : Task unit :=
  tryCatch
    (pos <- awaitPosition o ;;
     let coords := coordsOf pos in
     setLocation (Some coords) ;;
     animateToRegion coords 1000 ;;
     fetchNearbyPlaces (latitude coords) (longitude coords) (selectedType r))
    (alert "Error" "Failed to get your location").

Definition retry : Task unit :=
  setLoading true ;;
  setErrorMsg None.

Definition pressCard (p : Place) : Task unit :=
  animateToRegion
    {| latitude := lat (Geo.location (geometry p));
       longitude := lng (Geo.location (geometry p));
       latitudeDelta := 0x1.47ae147ae147bp-7%float;   (* 0.01 *)
       longitudeDelta := 0x1.47ae147ae147bp-7%float |}
    1000.

Definition handle (r : Screen) (a : Action) : Task unit :=
  match a with
  | PressRetry => retry
  | PressType t => handleTypeChange r t
  | PressRecenter => centerOnUserLocation r
  | PressCard i =>
      match nth_error (places r) i with
      | Some p => pressCard p
      | None => ret tt
      end
  end.

(** The controls that exist on the screen in state [s]. *)
Definition offered (s : Screen) (a : Action) : bool :=
  match render s, a with
  | ErrorContainer _ _ _, PressRetry => true
  | Container _ _ _ _ _, (PressType _ | PressRecenter) => true
  | Container _ _ _ _ _, PressCard i => i <? length (places s)
  | _, _ => false
  end.

(** *** The event loop

    One event at a time: the effect fires, the user presses a control, or a
    pending operation settles.  [Settle i o] is undefined when there is no
    [i]-th pending operation or [o] is not a result of its kind. *)
Inductive Event :=
| RunEffect
| User (a : Action)
| Settle (i : nat) (o : Settled).

Definition resume (p : Pending) (o : Settled) : option (Task unit) :=
  match p, o with
  | EffectPermission r, (Rejects | PermissionResponse _) =>
      Some (effect_afterPermission r o)
  | EffectPosition r, (Rejects | LocationObject _ _) =>
      Some (effect_afterPosition r o)
  | CenterPosition r, (Rejects | LocationObject _ _) =>
      Some (centerOnUserLocation_resume r o)
  | Fetching _, (Rejects | JsonBody _) =>
      Some (fetchNearbyPlaces_resume o)
  | _, _ => None
  end.

Definition step (w : W) (e : Event) : option W :=
  match e with
  | RunEffect => Some (exec (effect (screen w)) w)
  | User a =>
      if offered (screen w) a then Some (exec (handle (screen w) a) w) else None
  | Settle i o =>
      match nth_error (inflight w) i with
      | Some p =>
          match resume p o with
          | Some k => Some (exec k (settled i w))
          | None => None
          end
      | None => None
      end
  end.

Fixpoint run (w : W) (es : list Event) : option W :=
  match es with
  | [] => Some w
  | e :: rest =>
      match step w e with
      | Some w' => run w' rest
      | None => None
      end
  end.

Definition mount : W := mkWorld initial [] [].

End Maps.

(** ** DashboardScreen (src/app/(tabs)/profile.tsx) *)
Module Dashboard.
Local Open Scope js_scope.

(** The [id]s of [categories]. *)
Definition categories : list string := ["all"; "restaurant"; "cafe"; "laundry"].

Record Coords := { latitude : float; longitude : float }.

Record Screen := {
  searchQuery : string;
  selectedCategory : string;
  places : list Place;
  loading : bool;
  location : option Coords
}.

Definition initial : Screen :=
  {| searchQuery := ""; selectedCategory := "all"; places := [];
     loading := false; location := None |}.

Inductive Pending :=
| LocatePermission                          (* getCurrentLocation, at requestForegroundPermissionsAsync *)
| LocatePosition                            (* getCurrentLocation, at getCurrentPositionAsync *)
| Searching (r : Screen) (url : SearchUrl). (* searchNearbyPlaces, at fetch(url) / response.json() *)

Definition W : Type := World Screen Pending.
Definition Task : Type -> Type := M Screen Pending.

Definition setSearchQuery (v : string) : Task unit :=
  setState (fun s => {| searchQuery := v; selectedCategory := selectedCategory s;
                        places := places s; loading := loading s; location := location s |}).
Definition setSelectedCategory (v : string) : Task unit :=
  setState (fun s => {| searchQuery := searchQuery s; selectedCategory := v;
                        places := places s; loading := loading s; location := location s |}).
Definition setPlaces (v : list Place) : Task unit :=
  setState (fun s => {| searchQuery := searchQuery s; selectedCategory := selectedCategory s;
                        places := v; loading := loading s; location := location s |}).
Definition setLoading (v : bool) : Task unit :=
  setState (fun s => {| searchQuery := searchQuery s; selectedCategory := selectedCategory s;
                        places := places s; loading := v; location := location s |}).
Definition setLocation (v : option Coords) : Task unit :=
  setState (fun s => {| searchQuery := searchQuery s; selectedCategory := selectedCategory s;
                        places := places s; loading := loading s; location := v |}).

(** *** getCurrentLocation *)

Definition getCurrentLocation : Task unit :=
  suspend LocatePermission.

Definition getCurrentLocation_catch : Task unit :=
  console_error "Error getting location:" ;;
  alert "Error" "Failed to get your location".

Definition getCurrentLocation_afterPermission (o : Settled) : Task unit :=
  tryCatch
    (st <- awaitPermission o ;;
     if negb (String.eqb st "granted") then
       alert "Permission denied" "Location permission is required to find nearby places"
     else
       suspend LocatePosition)
    getCurrentLocation_catch.

Definition getCurrentLocation_afterPosition (o : Settled) : Task unit :=
  tryCatch
    (pos <- awaitPosition o ;;
     setLocation (Some {| latitude := fst pos; longitude := snd pos |}))
    getCurrentLocation_catch.

(** *** searchNearbyPlaces *)

(** The [switch (selectedCategory)]. *)
Definition typeOf (selectedCategory : string) : string :=
  if String.eqb selectedCategory "restaurant" then "restaurant"
  else if String.eqb selectedCategory "cafe" then "cafe"
  else if String.eqb selectedCategory "laundry" then "laundry"
  else "restaurant,cafe,laundry".

(** Up to [await fetch(url)]; every state value is the render's. *)
Definition searchNearbyPlaces (r : Screen) : Task unit :=
  match location r with
  | None =>
      alert "Location required" "Please allow location access to search nearby places"
  | Some loc =>
      setLoading true ;;
      let radius := 5000 in
      let type := typeOf (selectedCategory r) in
      let url := {| url_location := (latitude loc, longitude loc); url_radius := radius;
                    url_type := type; url_key := GOOGLE_PLACES_API_KEY |} in
      suspend (Searching r url)
  end.

(** The predicate passed to [filter]. *)
Definition matches (searchQuery : string) (place : Place) : bool :=
  JS.includes (JS.toLowerCase (name place)) (JS.toLowerCase searchQuery)
  || JS.includes (JS.toLowerCase (vicinity place)) (JS.toLowerCase searchQuery).

(** The value of [filteredPlaces] when it reaches the [slice]. *)
Definition filteredPlaces (searchQuery : string) (results : list Place) : list Place :=
  if JS.truthy (JS.trim searchQuery)
  then filter (matches searchQuery) results
  else results.

(** From the [await] to the end of the function. *)
Definition searchNearbyPlaces_resume (r : Screen) (o : Settled) : Task unit :=
  tryFinally
    (tryCatch
       (data <- awaitJson o ;;
        if String.eqb (status data) "OK" then
          rs <- resultsOf data ;;
          setPlaces (JS.slice0 15 (filteredPlaces (searchQuery r) rs))
        else
          console_error "Places API error:" ;;
          alert "Error" "Failed to search nearby places. Please check your API key.")
       (console_error "Search error:" ;;
        alert "Error" "Failed to search nearby places"))
    (setLoading false).

(** *** The handlers *)

Definition handleSearch (r : Screen) : Task unit :=
  if JS.truthy (JS.trim (searchQuery r)) || negb (String.eqb (selectedCategory r) "all")
  then searchNearbyPlaces r
  else ret tt.

(** [onPress] of a category button. *)
Definition pressCategory (r : Screen) (id : string) : Task unit :=
  setSelectedCategory id ;;
  match location r with
  | Some _ => searchNearbyPlaces r
  | None => ret tt
  end.

Inductive Action :=
| ChangeText (text : string)   (* onChangeText={setSearchQuery} *)
| ClearText                    (* the close-circle button *)
| SubmitEditing                (* onSubmitEditing={handleSearch} *)
| PressSearch                  (* the search button, disabled while loading *)
| PressCategory (id : string)
| PressClear                   (* "Clear" above the results *)
| PressEnableLocation.

Definition handle (r : Screen) (a : Action) : Task unit :=
  match a with
  | ChangeText text => setSearchQuery text
  | ClearText => setSearchQuery ""
  | SubmitEditing => handleSearch r
  | PressSearch => handleSearch r
  | PressCategory id => pressCategory r id
  | PressClear => setPlaces []
  | PressEnableLocation => getCurrentLocation
  end.

(** The controls that exist on the screen in state [s]. *)
Definition offered (s : Screen) (a : Action) : bool :=
  match a with
  | ChangeText _ | SubmitEditing => true
  | ClearText => negb (String.length (searchQuery s) =? 0)
  | PressSearch => negb (loading s)
  | PressCategory id => existsb (String.eqb id) categories
  | PressClear => negb (length (places s) =? 0)
  | PressEnableLocation =>
      negb (loading s) && (length (places s) =? 0)
      && match location s with None => true | Some _ => false end
  end.

(** *** The event loop *)
Inductive Event :=
| User (a : Action)
| Settle (i : nat) (o : Settled).

Definition resume (p : Pending) (o : Settled) : option (Task unit) :=
  match p, o with
  | LocatePermission, (Rejects | PermissionResponse _) =>
      Some (getCurrentLocation_afterPermission o)
  | LocatePosition, (Rejects | LocationObject _ _) =>
      Some (getCurrentLocation_afterPosition o)
  | Searching r _, (Rejects | JsonBody _) =>
      Some (searchNearbyPlaces_resume r o)
  | _, _ => None
  end.

Definition step (w : W) (e : Event) : option W :=
  match e with
  | User a =>
      if offered (screen w) a then Some (exec (handle (screen w) a) w) else None
  | Settle i o =>
      match nth_error (inflight w) i with
      | Some p =>
          match resume p o with
          | Some k => Some (exec k (settled i w))
          | None => None
          end
      | None => None
      end
  end.

Fixpoint run (w : W) (es : list Event) : option W :=
  match es with
  | [] => Some w
  | e :: rest =>
      match step w e with
      | Some w' => run w' rest
      | None => None
      end
  end.

(** The screen after its first render: the [useEffect(..., [])] has called
    [getCurrentLocation]. *)
Definition mount : W := exec getCurrentLocation (mkWorld initial [] []).

End Dashboard.

(** ** Concrete data for the runs below *)
Module Examples.

Definition place (id nm addr : string) : Place :=
  {| place_id := id; name := nm; vicinity := addr;
     geometry := {| Geo.location := {| lat := 1%float; lng := 2%float |} |};
     rating := Some 4.5%float; types := ["restaurant"];
     opening_hours := Some true |}.

Definition joes_diner : Place := place "p1" "Joe's Diner" "1 Main St".
Definition sunrise_cafe : Place := place "p2" "Sunrise Cafe" "2 Main St".
Definition burger_shack : Place := place "p3" "Burger Shack" "3 High St".

Definition ok (rs : list Place) : Settled :=
  JsonBody {| status := "OK"; results := Some rs |}.

Definition zero_results : Settled :=
  JsonBody {| status := "ZERO_RESULTS"; results := None |}.

Definition granted : Settled := PermissionResponse "granted".
Definition denied : Settled := PermissionResponse "denied".
Definition here : Settled := LocationObject 10%float 20%float.

(** The map screen once the location is known and the initial query is out. *)
Definition maps_located : option Maps.W :=
  Maps.run Maps.mount [Maps.RunEffect; Maps.Settle 0 granted; Maps.Settle 0 here].

(** The dashboard once the location is known. *)
Definition dashboard_located : option Dashboard.W :=
  Dashboard.run Dashboard.mount [Dashboard.Settle 0 granted; Dashboard.Settle 0 here].

(** Fifteen places that "cafe" does not match, with distinct ids. *)
Definition burgers : list Place :=
  map (fun i => place (String (ascii_of_nat (65 + i)) "") "Burger Shack" "3 High St")
      (seq 0 15).

Definition orDefault {A} (o : option A) (d : A) : A :=
  match o with
  | Some a => a
  | None => d
  end.

(** The map shows Joe's Diner and a query for cafes is out. *)
Definition maps_busy_trace : list Maps.Event :=
  [Maps.RunEffect; Maps.Settle 0 granted; Maps.Settle 0 here;
   Maps.Settle 0 (ok [joes_diner]); Maps.User (Maps.PressType Maps.cafe)].

Definition maps_busy : Maps.W :=
  Eval vm_compute in orDefault (Maps.run Maps.mount maps_busy_trace) Maps.mount.

(** The dashboard lists two places, the user has typed "cafe", submitted, and
    the query is out. *)
Definition dashboard_busy_trace : list Dashboard.Event :=
  [Dashboard.Settle 0 granted; Dashboard.Settle 0 here;
   Dashboard.User (Dashboard.PressCategory "restaurant");
   Dashboard.Settle 0 (ok [joes_diner; burger_shack]);
   Dashboard.User (Dashboard.ChangeText "cafe");
   Dashboard.User Dashboard.SubmitEditing].

Definition dashboard_busy : Dashboard.W :=
  Eval vm_compute in
    orDefault (Dashboard.run Dashboard.mount dashboard_busy_trace) Dashboard.mount.

(** Two queries are out on the map: A for restaurants (sent by the effect),
    then B for cafes (sent by the filter button). *)
Definition maps_two_queries_trace : list Maps.Event :=
  [Maps.RunEffect; Maps.Settle 0 granted; Maps.Settle 0 here;
   Maps.User (Maps.PressType Maps.cafe)].

Definition maps_two_queries : Maps.W :=
  Eval vm_compute in orDefault (Maps.run Maps.mount maps_two_queries_trace) Maps.mount.

(** Two queries are out on the dashboard: A sent by the "Restaurants" button,
    then B sent by submitting the text "cafe". *)
Definition dashboard_two_queries_trace : list Dashboard.Event :=
  [Dashboard.Settle 0 granted; Dashboard.Settle 0 here;
   Dashboard.User (Dashboard.PressCategory "restaurant");
   Dashboard.User (Dashboard.ChangeText "cafe");
   Dashboard.User Dashboard.SubmitEditing].

Definition dashboard_two_queries : Dashboard.W :=
  Eval vm_compute in
    orDefault (Dashboard.run Dashboard.mount dashboard_two_queries_trace) Dashboard.mount.

(** The render that query was sent from. *)
Definition dashboard_busy_render : Dashboard.Screen :=
  Eval vm_compute in
    match inflight dashboard_busy with
    | [Dashboard.Searching r _] => r
    | _ => Dashboard.initial
    end.

End Examples.

(** ** How a place is drawn from its [types] *)
Module PlaceTags.

(** [types.includes(tag)] *)
Definition includes (types : list string) (tag : string) : bool :=
  existsb (String.eqb tag) types.

(** maps.tsx *)
Definition getMarkerColor (types : list string) : string :=
  if includes types "cafe" then "#f59e0b"
  else "#ef4444".

(** The label returned for cafes.  The literal of profile.tsx is "Caf"
    followed by the two code units U+00C3 and U+00A9 (the file holds the
    bytes C3 83 C2 A9 there), five code units in all. *)
Definition Cafe_e : string := "Caf" ++ String "195"%char (String "169"%char "").

(** profile.tsx *)
Definition getPlaceType (types : list string) : string :=
  if includes types "laundry" then "Laundry"
  else if includes types "cafe" || includes types "coffee" then Cafe_e
  else if includes types "restaurant" || includes types "food" then "Restaurant"
  else "Other".

Definition getPlaceIcon (types : list string) : string :=
  if includes types "laundry" then "shirt-outline"
  else if includes types "cafe" || includes types "coffee" then "cafe-outline"
  else if includes types "restaurant" || includes types "food" then "restaurant-outline"
  else "location-outline".

End PlaceTags.

(** ** The screens that talk to the identity provider *)
Module Auth.

(** The value a rejected promise carries, as far as the [catch] blocks look
    at it: an [Error] with its [message], or another value with its
    [errors] property ([None]: the value is nullish or has no such
    property), each entry with its [message] ([None]: absent). *)
Inductive Thrown :=
| ErrorInstance (message : string)
| OtherValue (errors : option (list (option string))).

(** [(err as any)?.errors?.[0]?.message] *)
Definition firstErrorMessage (errors : option (list (option string))) : option string :=
  match errors with
  | Some (m :: _) => m
  | _ => None
  end.

(** [err instanceof Error ? err.message
       : (err as any)?.errors?.[0]?.message || fallback] *)
Definition errorMessage (err : Thrown) (fallback : string) : string :=
  match err with
  | ErrorInstance m => m
  | OtherValue errors =>
      match firstErrorMessage errors with
      | Some m => if JS.truthy m then m else fallback
      | None => fallback
      end
  end.

(** [err instanceof Error ? err.message : fallback] *)
Definition messageOr (err : Thrown) (fallback : string) : string :=
  match err with
  | ErrorInstance m => m
  | OtherValue _ => fallback
  end.

Inductive RouterCall :=
| Replace (href : string)
| Push (href : string).

(** How an awaited call to the provider settles. *)
Inductive AuthSettled :=
| AuthRejects (err : Thrown)
| SessionCreated (createdSessionId : option string)  (* a result with [createdSessionId] *)
| Resolves.                                          (* a result that is not read *)

End Auth.

(** *** SignInScreen (src/app/(auth)/sign-in.tsx) *)
Module SignIn.
Import Auth.
Local Open Scope js_scope.

(** What a render sees: [isLoaded] of [useSignIn()] and the [useState]
    variables; [router] lists the calls made on the router, oldest first. *)
Record Screen := {
  isLoaded : bool;
  emailOrUsername : string;
  password : string;
  loading : bool;
  router : list RouterCall
}.

Definition initial : Screen :=
  {| isLoaded := false; emailOrUsername := ""; password := ""; loading := false;
     router := [] |}.

Inductive Pending :=
| Creating (identifier pass : string)   (* at signIn.create({ identifier, password }) *)
| Activating (session : option string). (* at setActive({ session }) *)

Definition W : Type := World Screen Pending.
Definition Task : Type -> Type := M Screen Pending.

Definition setIsLoaded (v : bool) : Task unit :=
  setState (fun s => {| isLoaded := v; emailOrUsername := emailOrUsername s;
                        password := password s; loading := loading s; router := router s |}).
Definition setEmailOrUsername (v : string) : Task unit :=
  setState (fun s => {| isLoaded := isLoaded s; emailOrUsername := v;
                        password := password s; loading := loading s; router := router s |}).
Definition setPassword (v : string) : Task unit :=
  setState (fun s => {| isLoaded := isLoaded s; emailOrUsername := emailOrUsername s;
                        password := v; loading := loading s; router := router s |}).
Definition setLoading (v : bool) : Task unit :=
  setState (fun s => {| isLoaded := isLoaded s; emailOrUsername := emailOrUsername s;
                        password := password s; loading := v; router := router s |}).
Definition route (c : RouterCall) : Task unit :=
  setState (fun s => {| isLoaded := isLoaded s; emailOrUsername := emailOrUsername s;
                        password := password s; loading := loading s;
                        router := (router s ++ [c])%list |}).

(** Up to [await signIn.create(...)]. *)
Definition onSignInPress (r : Screen) : Task unit :=
  if negb (isLoaded r) then ret tt
  else
    setLoading true ;;
    suspend (Creating (emailOrUsername r) (password r)).

(** The [catch] block, then the [finally] block. *)
Definition onSignInPress_failed (err : Thrown) : Task unit :=
  tryFinally
    (alert "Error" (errorMessage err "Failed to sign in") ;;
     console_error "Sign in error:")
    (setLoading false).

(** [signIn.create] has settled: on a result the function goes on to
    [await setActive(...)], still inside the [try]. *)
Definition onSignInPress_afterCreate (o : AuthSettled) : option (Task unit) :=
  match o with
  | SessionCreated createdSessionId => Some (suspend (Activating createdSessionId))
  | AuthRejects err => Some (onSignInPress_failed err)
  | Resolves => None
  end.

(** [setActive] has settled; its result is not read. *)
Definition onSignInPress_afterSetActive (o : AuthSettled) : option (Task unit) :=
  match o with
  | AuthRejects err => Some (onSignInPress_failed err)
  | _ => Some (tryFinally (route (Replace "/")) (setLoading false))
  end.

Inductive Action :=
| ChangeEmailOrUsername (text : string)
| ChangePassword (text : string)
| PressSignIn            (* disabled while loading *)
| PressSignUpLink.

Definition handle (r : Screen) (a : Action) : Task unit :=
  match a with
  | ChangeEmailOrUsername text => setEmailOrUsername text
  | ChangePassword text => setPassword text
  | PressSignIn => onSignInPress r
  | PressSignUpLink => route (Push "/sign-up")
  end.

Definition offered (s : Screen) (a : Action) : bool :=
  match a with
  | PressSignIn => negb (loading s)
  | _ => true
  end.

(** [ProviderLoaded]: [useSignIn()] starts to report [isLoaded]. *)
Inductive Event :=
| ProviderLoaded
| User (a : Action)
| Settle (i : nat) (o : AuthSettled).

Definition resume (p : Pending) (o : AuthSettled) : option (Task unit) :=
  match p with
  | Creating _ _ => onSignInPress_afterCreate o
  | Activating _ => onSignInPress_afterSetActive o
  end.

Definition step (w : W) (e : Event) : option W :=
  match e with
  | ProviderLoaded => Some (exec (setIsLoaded true) w)
  | User a =>
      if offered (screen w) a then Some (exec (handle (screen w) a) w) else None
  | Settle i o =>
      match nth_error (inflight w) i with
      | Some p =>
          match resume p o with
          | Some k => Some (exec k (settled i w))
          | None => None
          end
      | None => None
      end
  end.

Fixpoint run (w : W) (es : list Event) : option W :=
  match es with
  | [] => Some w
  | e :: rest =>
      match step w e with
      | Some w' => run w' rest
      | None => None
      end
  end.

Definition mount : W := mkWorld initial [] [].

End SignIn.

(** *** SignUpScreen (src/unnamed/part_000) *)
Module SignUp.
Import Auth.
Local Open Scope js_scope.

Record Screen := {
  isLoaded : bool;
  username : string;
  email : string;
  password : string;
  loading : bool;
  pendingVerification : bool;
  code : string;
  router : list RouterCall
}.

Definition initial : Screen :=
  {| isLoaded := false; username := ""; email := ""; password := ""; loading := false;
     pendingVerification := false; code := ""; router := [] |}.

Inductive Pending :=
| Creating (user mail pass : string)  (* at signUp.create({ username, emailAddress, password }) *)
| Preparing                           (* at signUp.prepareEmailAddressVerification(...) *)
| Attempting (code : string)          (* at signUp.attemptEmailAddressVerification({ code }) *)
| Activating (session : option string). (* at setActive({ session }) *)

Definition W : Type := World Screen Pending.
Definition Task : Type -> Type := M Screen Pending.

Definition setIsLoaded (v : bool) : Task unit :=
  setState (fun s => {| isLoaded := v; username := username s; email := email s;
                        password := password s; loading := loading s;
                        pendingVerification := pendingVerification s; code := code s;
                        router := router s |}).
Definition setUsername (v : string) : Task unit :=
  setState (fun s => {| isLoaded := isLoaded s; username := v; email := email s;
                        password := password s; loading := loading s;
                        pendingVerification := pendingVerification s; code := code s;
                        router := router s |}).
Definition setEmail (v : string) : Task unit :=
  setState (fun s => {| isLoaded := isLoaded s; username := username s; email := v;
                        password := password s; loading := loading s;
                        pendingVerification := pendingVerification s; code := code s;
                        router := router s |}).
Definition setPassword (v : string) : Task unit :=
  setState (fun s => {| isLoaded := isLoaded s; username := username s; email := email s;
                        password := v; loading := loading s;
                        pendingVerification := pendingVerification s; code := code s;
                        router := router s |}).
Definition setLoading (v : bool) : Task unit :=
  setState (fun s => {| isLoaded := isLoaded s; username := username s; email := email s;
                        password := password s; loading := v;
                        pendingVerification := pendingVerification s; code := code s;
                        router := router s |}).
Definition setPendingVerification (v : bool) : Task unit :=
  setState (fun s => {| isLoaded := isLoaded s; username := username s; email := email s;
                        password := password s; loading := loading s;
                        pendingVerification := v; code := code s;
                        router := router s |}).
Definition setCode (v : string) : Task unit :=
  setState (fun s => {| isLoaded := isLoaded s; username := username s; email := email s;
                        password := password s; loading := loading s;
                        pendingVerification := pendingVerification s; code := v;
                        router := router s |}).
Definition route (c : RouterCall) : Task unit :=
  setState (fun s => {| isLoaded := isLoaded s; username := username s; email := email s;
                        password := password s; loading := loading s;
                        pendingVerification := pendingVerification s; code := code s;
                        router := (router s ++ [c])%list |}).

(** **** onSignUpPress *)

Definition onSignUpPress (r : Screen) : Task unit :=
  if negb (isLoaded r) then ret tt
  else
    setLoading true ;;
    suspend (Creating (username r) (email r) (password r)).

Definition onSignUpPress_failed (err : Thrown) : Task unit :=
  tryFinally
    (alert "Error" (errorMessage err "Failed to sign up") ;;
     console_error "Sign up error:")
    (setLoading false).

(** [signUp.create] has settled; its result is not read. *)
Definition onSignUpPress_afterCreate (o : AuthSettled) : option (Task unit) :=
  match o with
  | AuthRejects err => Some (onSignUpPress_failed err)
  | _ => Some (suspend Preparing)
  end.

(** [prepareEmailAddressVerification] has settled; its result is not read. *)
Definition onSignUpPress_afterPrepare (o : AuthSettled) : option (Task unit) :=
  match o with
  | AuthRejects err => Some (onSignUpPress_failed err)
  | _ => Some (tryFinally (setPendingVerification true) (setLoading false))
  end.

(** **** onVerifyPress *)

Definition onVerifyPress (r : Screen) : Task unit :=
  if negb (isLoaded r) then ret tt
  else
    setLoading true ;;
    suspend (Attempting (code r)).

Definition onVerifyPress_failed (err : Thrown) : Task unit :=
  tryFinally
    (alert "Error" (errorMessage err "Failed to verify") ;;
     console_error "Verification error:")
    (setLoading false).

Definition onVerifyPress_afterAttempt (o : AuthSettled) : option (Task unit) :=
  match o with
  | SessionCreated createdSessionId => Some (suspend (Activating createdSessionId))
  | AuthRejects err => Some (onVerifyPress_failed err)
  | Resolves => None
  end.

Definition onVerifyPress_afterSetActive (o : AuthSettled) : option (Task unit) :=
  match o with
  | AuthRejects err => Some (onVerifyPress_failed err)
  | _ => Some (tryFinally (route (Replace "/")) (setLoading false))
  end.

(** **** The two forms *)

Inductive Action :=
| ChangeUsername (text : string)
| ChangeEmail (text : string)
| ChangePassword (text : string)
| PressSignUp              (* disabled while loading *)
| PressLoginLink
| ChangeCode (text : string)   (* a TextInput with maxLength={6} *)
| PressVerify.             (* disabled while loading *)

Definition handle (r : Screen) (a : Action) : Task unit :=
  match a with
  | ChangeUsername text => setUsername text
  | ChangeEmail text => setEmail text
  | ChangePassword text => setPassword text
  | PressSignUp => onSignUpPress r
  | PressLoginLink => route (Push "/sign-in")
  | ChangeCode text => setCode text
  | PressVerify => onVerifyPress r
  end.

(** [if (pendingVerification)] the verification form is rendered, otherwise
    the sign-up form.  The code input hands over at most 6 code units. *)
Definition offered (s : Screen) (a : Action) : bool :=
  match a with
  | ChangeUsername _ | ChangeEmail _ | ChangePassword _ | PressLoginLink =>
      negb (pendingVerification s)
  | PressSignUp => negb (pendingVerification s) && negb (loading s)
  | ChangeCode text => pendingVerification s && (String.length text <=? 6)
  | PressVerify => pendingVerification s && negb (loading s)
  end.

Inductive Event :=
| ProviderLoaded
| User (a : Action)
| Settle (i : nat) (o : AuthSettled).

Definition resume (p : Pending) (o : AuthSettled) : option (Task unit) :=
  match p with
  | Creating _ _ _ => onSignUpPress_afterCreate o
  | Preparing => onSignUpPress_afterPrepare o
  | Attempting _ => onVerifyPress_afterAttempt o
  | Activating _ => onVerifyPress_afterSetActive o
  end.

Definition step (w : W) (e : Event) : option W :=
  match e with
  | ProviderLoaded => Some (exec (setIsLoaded true) w)
  | User a =>
      if offered (screen w) a then Some (exec (handle (screen w) a) w) else None
  | Settle i o =>
      match nth_error (inflight w) i with
      | Some p =>
          match resume p o with
          | Some k => Some (exec k (settled i w))
          | None => None
          end
      | None => None
      end
  end.

Fixpoint run (w : W) (es : list Event) : option W :=
  match es with
  | [] => Some w
  | e :: rest =>
      match step w e with
      | Some w' => run w' rest
      | None => None
      end
  end.

Definition mount : W := mkWorld initial [] [].

End SignUp.

(** *** ProfileScreen (src/app/(tabs)/profile.tsx, first half) *)
Module Profile.
Import Auth.
Local Open Scope js_scope.

(** [user]: the id of the user [useUser()] reports, if any. *)
Record Screen := {
  user : option string;
  settingsModalVisible : bool;
  router : list RouterCall
}.

(** An alert with a Cancel and a destructive button stays open until one of
    them is pressed; [r] is the render whose [user] the Delete button reads. *)
Inductive Pending :=
| SignOutDialog
| DeleteDialog (r : Screen)
| SigningOut             (* at signOut() *)
| Deleting (id : string). (* at user.delete() *)

Definition W : Type := World Screen Pending.
Definition Task : Type -> Type := M Screen Pending.

Definition setSettingsModalVisible (v : bool) : Task unit :=
  setState (fun s => {| user := user s; settingsModalVisible := v; router := router s |}).
Definition route (c : RouterCall) : Task unit :=
  setState (fun s => {| user := user s; settingsModalVisible := settingsModalVisible s;
                        router := (router s ++ [c])%list |}).

Definition handleSignOut : Task unit :=
  alert "Sign Out" "Are you sure you want to sign out?" ;;
  suspend SignOutDialog.

(** The [onPress] of the "Sign Out" button of the alert. *)
Definition signOut_confirmed : Task unit :=
  suspend SigningOut.

Definition signOut_settled (o : AuthSettled) : Task unit :=
  match o with
  | AuthRejects err => alert "Error" (messageOr err "Failed to sign out")
  | _ =>
      setSettingsModalVisible false ;;
      route (Replace "/sign-in")
  end.

Definition handleDeleteAccount (r : Screen) : Task unit :=
  alert "Delete Account"
        "Are you sure you want to delete your account? This action cannot be reversed." ;;
  suspend (DeleteDialog r).

Definition delete_settled (o : AuthSettled) : Task unit :=
  match o with
  | AuthRejects err => alert "Error" (messageOr err "Failed to delete account")
  | _ =>
      setSettingsModalVisible false ;;
      route (Replace "/sign-in")
  end.

(** The [onPress] of the "Delete" button: [await user?.delete()] awaits
    [undefined] when there is no user and goes on at once. *)
Definition delete_confirmed (r : Screen) : Task unit :=
  match user r with
  | Some id => suspend (Deleting id)
  | None => delete_settled Resolves
  end.

Inductive Option_ := EditProfile | ChangePassword | PrivacySettings.

Definition optionTitle (o : Option_) : string :=
  match o with
  | EditProfile => "Edit Profile"
  | ChangePassword => "Change Password"
  | PrivacySettings => "Privacy Settings"
  end.

Definition optionMessage (o : Option_) : string :=
  match o with
  | EditProfile => "Edit profile feature coming soon!"
  | ChangePassword => "Change password feature coming soon!"
  | PrivacySettings => "Privacy settings feature coming soon!"
  end.

Definition pressOption (o : Option_) : Task unit :=
  setSettingsModalVisible false ;;
  alert (optionTitle o) (optionMessage o).

Inductive Action :=
| OpenSettings
| CloseSettings               (* the close button, or onRequestClose *)
| PressOption (o : Option_)
| PressSignOut
| PressDeleteAccount.

Definition handle (r : Screen) (a : Action) : Task unit :=
  match a with
  | OpenSettings => setSettingsModalVisible true
  | CloseSettings => setSettingsModalVisible false
  | PressOption o => pressOption o
  | PressSignOut => handleSignOut
  | PressDeleteAccount => handleDeleteAccount r
  end.

(** The modal's controls exist while the modal is visible. *)
Definition offered (s : Screen) (a : Action) : bool :=
  match a with
  | OpenSettings => true
  | _ => settingsModalVisible s
  end.

Inductive Choice := Cancel | Destructive.

Inductive Event :=
| User (a : Action)
| Choose (i : nat) (c : Choice)        (* a button of the [i]-th pending alert *)
| Settle (i : nat) (o : AuthSettled).

Definition choose (p : Pending) (c : Choice) : option (Task unit) :=
  match p, c with
  | (SignOutDialog | DeleteDialog _), Cancel => Some (ret tt)
  | SignOutDialog, Destructive => Some signOut_confirmed
  | DeleteDialog r, Destructive => Some (delete_confirmed r)
  | _, _ => None
  end.

Definition resume (p : Pending) (o : AuthSettled) : option (Task unit) :=
  match p with
  | SigningOut => Some (signOut_settled o)
  | Deleting _ => Some (delete_settled o)
  | _ => None
  end.

Definition step (w : W) (e : Event) : option W :=
  match e with
  | User a =>
      if offered (screen w) a then Some (exec (handle (screen w) a) w) else None
  | Choose i c =>
      match nth_error (inflight w) i with
      | Some p =>
          match choose p c with
          | Some k => Some (exec k (settled i w))
          | None => None
          end
      | None => None
      end
  | Settle i o =>
      match nth_error (inflight w) i with
      | Some p =>
          match resume p o with
          | Some k => Some (exec k (settled i w))
          | None => None
          end
      | None => None
      end
  end.

Fixpoint run (w : W) (es : list Event) : option W :=
  match es with
  | [] => Some w
  | e :: rest =>
      match step w e with
      | Some w' => run w' rest
      | None => None
      end
  end.

Definition mount (u : option string) : W :=
  mkWorld {| user := u; settingsModalVisible := false; router := [] |} [] [].

End Profile.

(** ** Concrete states of the sign-in, sign-up and profile screens *)
Module AuthExamples.

(** The sign-in form is filled in and the provider is loaded. *)
Definition signin_ready_trace : list SignIn.Event :=
  [SignIn.ProviderLoaded;
   SignIn.User (SignIn.ChangeEmailOrUsername "ann");
   SignIn.User (SignIn.ChangePassword "pw")].

Definition signin_ready : SignIn.W :=
  Eval vm_compute in
    Examples.orDefault (SignIn.run SignIn.mount signin_ready_trace) SignIn.mount.

(** "Sign In" has been pressed. *)
Definition signin_submitted_trace : list SignIn.Event :=
  (signin_ready_trace ++ [SignIn.User SignIn.PressSignIn])%list.

Definition signin_submitted : SignIn.W :=
  Eval vm_compute in
    Examples.orDefault (SignIn.run SignIn.mount signin_submitted_trace) SignIn.mount.

(** The sign-up form is filled in and the provider is loaded. *)
Definition signup_ready_trace : list SignUp.Event :=
  [SignUp.ProviderLoaded;
   SignUp.User (SignUp.ChangeUsername "ann");
   SignUp.User (SignUp.ChangeEmail "ann@example.org");
   SignUp.User (SignUp.ChangePassword "pw")].

Definition signup_ready : SignUp.W :=
  Eval vm_compute in
    Examples.orDefault (SignUp.run SignUp.mount signup_ready_trace) SignUp.mount.

(** The account was created, the verification form is up and holds a code. *)
Definition signup_verifying_trace : list SignUp.Event :=
  (signup_ready_trace ++
   [SignUp.User SignUp.PressSignUp;
    SignUp.Settle 0 Auth.Resolves;
    SignUp.Settle 0 Auth.Resolves;
    SignUp.User (SignUp.ChangeCode "123456")])%list.

Definition signup_verifying : SignUp.W :=
  Eval vm_compute in
    Examples.orDefault (SignUp.run SignUp.mount signup_verifying_trace) SignUp.mount.

(** The settings modal is open and the "Sign Out" alert is up. *)
Definition profile_signout_trace : list Profile.Event :=
  [Profile.User Profile.OpenSettings; Profile.User Profile.PressSignOut].

Definition profile_signout (u : option string) : Profile.W :=
  Eval vm_compute in
    Examples.orDefault (Profile.run (Profile.mount u) profile_signout_trace)
                       (Profile.mount u).

(** The settings modal is open and the "Delete Account" alert is up. *)
Definition profile_delete_trace : list Profile.Event :=
  [Profile.User Profile.OpenSettings; Profile.User Profile.PressDeleteAccount].

Definition profile_delete (u : option string) : Profile.W :=
  Eval vm_compute in
    Examples.orDefault (Profile.run (Profile.mount u) profile_delete_trace)
                       (Profile.mount u).

End AuthExamples.

(** [l] keeps some entries of [m], in the order they have in [m]. *)
Inductive Subseq {A : Type} : list A -> list A -> Prop :=
| Subseq_nil : Subseq [] []
| Subseq_skip x l m : Subseq l m -> Subseq l (x :: m)
| Subseq_keep x l m : Subseq l m -> Subseq (x :: l) (x :: m).

(** The [type] parameters of the queries a screen has sent and not yet heard
    back from, oldest first. *)
Definition maps_sent (w : Maps.W) : list SearchUrl :=
  flat_map (fun p => match p with Maps.Fetching u => [u] | _ => [] end) (inflight w).

Definition dashboard_sent (w : Dashboard.W) : list SearchUrl :=
  flat_map (fun p => match p with Dashboard.Searching _ u => [u] | _ => [] end) (inflight w).

(** How a settled query is classified by [data.status === 'OK'] and the
    [try]: the result list of a successful response, a failed query (a
    rejection of [fetch] or [response.json()], or a status other than OK). *)
Definition okResults (o : Settled) : option (list Place) :=
  match o with
  | JsonBody d => if String.eqb (status d) "OK" then results d else None
  | _ => None
  end.

(** What a pending query can settle with. *)
Definition answersQuery (o : Settled) : bool :=
  match o with
  | Rejects | JsonBody _ => true
  | _ => false
  end.

Definition queryFailed (o : Settled) : bool :=
  match o with
  | Rejects => true
  | JsonBody d => negb (String.eqb (status d) "OK")
  | _ => false
  end.

(** ** State predicates used as invariants of the event loops *)

(** The map never shows more than 20 places, and as long as no location is
    known it shows none and has no query out. *)
Definition maps_inv (w : Maps.W) : Prop :=
  length (Maps.places (screen w)) <= 20
  /\ (Maps.location (screen w) = None ->
      Maps.places (screen w) = [] /\ maps_sent w = []).

Definition dashboard_inv (w : Dashboard.W) : Prop :=
  length (Dashboard.places (screen w)) <= 15
  /\ (Dashboard.location (screen w) = None ->
      Dashboard.places (screen w) = [] /\ dashboard_sent w = []).

(** [loading] is set exactly while one call to the provider is out. *)
Definition signin_inv (w : SignIn.W) : Prop :=
  if SignIn.loading (screen w) then length (inflight w) = 1 else inflight w = [].

Definition signup_inv (w : SignUp.W) : Prop :=
  if SignUp.loading (screen w) then length (inflight w) = 1 else inflight w = [].

(** Nothing has been asked of the provider or the router: the only pending
    entries are open alerts. *)
Definition profile_quiet (w : Profile.W) : Prop :=
  Profile.router (screen w) = []
  /\ Forall (fun p => match p with
                      | Profile.SignOutDialog | Profile.DeleteDialog _ => True
                      | _ => False
                      end) (inflight w).

Definition confirms (e : Profile.Event) : bool :=
  match e with
  | Profile.Choose _ Profile.Destructive => true
  | _ => false
  end.

(** * Properties *)

(** ** Strings *)
Module JSFacts.
Import JS.

Lemma lowerUnit_idem c : lowerUnit (lowerUnit c) = lowerUnit c.
Proof. destruct c as [[] [] [] [] [] [] [] []]; reflexivity. Qed.

Lemma lowerUnit_ws c : isWhiteSpace (lowerUnit c) = isWhiteSpace c.
Proof. destruct c as [[] [] [] [] [] [] [] []]; reflexivity. Qed.

Lemma toLowerCase_idem s : toLowerCase (toLowerCase s) = toLowerCase s.
Proof.
  induction s as [|c s IH]; simpl; [reflexivity|].
  now rewrite lowerUnit_idem, IH.
Qed.

Lemma trimStart_lower s : trimStart (toLowerCase s) = toLowerCase (trimStart s).
Proof.
  induction s as [|c s IH]; simpl; [reflexivity|].
  rewrite lowerUnit_ws. destruct (isWhiteSpace c); [exact IH | reflexivity].
Qed.

Lemma trimEnd_lower s : trimEnd (toLowerCase s) = toLowerCase (trimEnd s).
Proof.
  induction s as [|c s IH]; simpl; [reflexivity|].
  rewrite IH, lowerUnit_ws.
  destruct (trimEnd s); simpl; [destruct (isWhiteSpace c)|]; reflexivity.
Qed.

Lemma trim_lower s : trim (toLowerCase s) = toLowerCase (trim s).
Proof. unfold trim. now rewrite trimStart_lower, trimEnd_lower. Qed.

Lemma truthy_lower s : truthy (toLowerCase s) = truthy s.
Proof. destruct s; reflexivity. Qed.

(** Whether a query is blank does not depend on its letter case. *)
Lemma truthy_trim_lower s : truthy (trim (toLowerCase s)) = truthy (trim s).
Proof. now rewrite trim_lower, truthy_lower. Qed.

Lemma includes_empty s : includes s "" = true.
Proof. destruct s; reflexivity. Qed.

Lemma filter_idem {A} (f : A -> bool) l : filter f (filter f l) = filter f l.
Proof.
  induction l as [|x l IH]; simpl; [reflexivity|].
  destruct (f x) eqn:E; simpl; [rewrite E, IH|]; auto.
Qed.

Lemma filter_Subseq {A} (f : A -> bool) l : Subseq (filter f l) l.
Proof.
  induction l as [|x l IH]; simpl; [constructor|].
  destruct (f x); constructor; exact IH.
Qed.

Lemma firstn_Subseq {A} n (l : list A) : Subseq (firstn n l) l.
Proof.
  assert (Hnil : forall m : list A, Subseq [] m).
  { induction m; constructor; assumption. }
  revert n; induction l as [|x l IH]; intros [|n]; simpl.
  - constructor.
  - constructor.
  - apply Hnil.
  - apply Subseq_keep, IH.
Qed.

Lemma Subseq_trans {A} (l m k : list A) : Subseq l m -> Subseq m k -> Subseq l k.
Proof.
  intros H1 H2; revert l H1.
  induction H2 as [|x m k H2 IH|x m k H2 IH]; intros l H1.
  - exact H1.
  - constructor; auto.
  - inversion H1; subst; [apply Subseq_skip | apply Subseq_keep]; auto.
Qed.

(** [prefix] and [includes] say what they should: the second string starts
    with, respectively contains, the first. *)
Lemma prefix_spec p s : String.prefix p s = true <-> exists post, s = p ++ post.
Proof.
  revert s; induction p as [|a p IH]; intros s; simpl.
  - destruct s; split; eauto.
  - destruct s as [|b s]; simpl.
    + split; [discriminate | intros [post H]; discriminate].
    + destruct (ascii_dec a b) as [->|Hab].
      * rewrite IH. split; intros [post H]; exists post; congruence.
      * split; [discriminate | intros [post H]; congruence].
Qed.

Lemma includes_nil sub : includes "" sub = String.prefix sub "" || false.
Proof. reflexivity. Qed.

Lemma includes_cons c s sub :
  includes (String c s) sub = String.prefix sub (String c s) || includes s sub.
Proof. reflexivity. Qed.

Lemma includes_spec s sub :
  includes s sub = true <-> exists pre post, s = pre ++ sub ++ post.
Proof.
  split.
  - induction s as [|c s IH]; [rewrite includes_nil | rewrite includes_cons];
      rewrite orb_true_iff; intros [H|H].
    + apply prefix_spec in H. destruct H as [post H]. exists "", post. exact H.
    + discriminate.
    + apply prefix_spec in H. destruct H as [post H]. exists "", post. exact H.
    + destruct (IH H) as [pre [post E]]. exists (String c pre), post. simpl. now rewrite E.
  - intros [pre [post E]]. revert s E. induction pre as [|c pre IH]; intros s E.
    + assert (Hp : String.prefix sub s = true) by (apply prefix_spec; exists post; exact E).
      destruct s; [rewrite includes_nil | rewrite includes_cons]; now rewrite Hp.
    + simpl in E. subst s. rewrite includes_cons. apply orb_true_iff. right.
      apply IH. reflexivity.
Qed.

End JSFacts.

(** ** The free-text filter of the dashboard *)
Module FilterFacts.
Import JS JSFacts Dashboard.

Lemma matches_lower q p : matches (toLowerCase q) p = matches q p.
Proof. unfold matches. now rewrite toLowerCase_idem. Qed.

(** Two queries that differ only in letter case select the same places. *)
Lemma filteredPlaces_case q1 q2 rs :
  toLowerCase q1 = toLowerCase q2 -> filteredPlaces q1 rs = filteredPlaces q2 rs.
Proof.
  intros E. unfold filteredPlaces.
  rewrite <- (truthy_trim_lower q1), <- (truthy_trim_lower q2), E.
  destruct (truthy (trim (toLowerCase q2))); [|reflexivity].
  apply filter_ext; intros p. unfold matches. now rewrite E.
Qed.

Lemma filteredPlaces_idem q rs :
  filteredPlaces q (filteredPlaces q rs) = filteredPlaces q rs.
Proof.
  unfold filteredPlaces. destruct (truthy (trim q)); [apply filter_idem | reflexivity].
Qed.

Lemma filteredPlaces_Subseq q rs : Subseq (filteredPlaces q rs) rs.
Proof.
  unfold filteredPlaces. destruct (truthy (trim q)); [apply filter_Subseq|].
  rewrite <- (firstn_all rs) at 1. apply firstn_Subseq.
Qed.

Lemma shown_Subseq q rs : Subseq (slice0 15 (filteredPlaces q rs)) rs.
Proof.
  eapply Subseq_trans; [apply firstn_Subseq | apply filteredPlaces_Subseq].
Qed.

(** [matches] is the case-insensitive substring test on name or address. *)
Lemma matches_spec q p :
  matches q p = true
  <-> (exists pre post, toLowerCase (name p) = pre ++ toLowerCase q ++ post)
      \/ (exists pre post, toLowerCase (vicinity p) = pre ++ toLowerCase q ++ post).
Proof.
  unfold matches. rewrite orb_true_iff, !includes_spec. reflexivity.
Qed.

(** Under a search text that is not blank, exactly the matching places of the
    list are kept. *)
Lemma filteredPlaces_In q rs p :
  truthy (trim q) = true ->
  In p (filteredPlaces q rs) <-> In p rs /\ matches q p = true.
Proof.
  intros H. unfold filteredPlaces. rewrite H. apply filter_In.
Qed.

End FilterFacts.

(** C7: the dashboard's free-text filter is a case-insensitive substring match
    on name or address.  A place matches a query exactly when the lower-cased
    query occurs as a substring in its lower-cased name or in its lower-cased
    address; under a query that is not blank the filter keeps exactly the
    matching places of the list, in their order, and removes the others;
    under a blank query it keeps the list.  "Cafe" and "cafe", and any two
    queries that differ only in letter case, select the same places from
    every result list; the empty query leaves the list as it is; and
    filtering twice gives what filtering once gives. *)
Theorem C7_filter_case_insensitive_idempotent :
  (forall q p,
      Dashboard.matches q p = true
      <-> (exists pre post,
              JS.toLowerCase (name p) = pre ++ JS.toLowerCase q ++ post)
          \/ (exists pre post,
                 JS.toLowerCase (vicinity p) = pre ++ JS.toLowerCase q ++ post))
  /\ (forall q rs,
         JS.truthy (JS.trim q) = true ->
         Dashboard.filteredPlaces q rs = filter (Dashboard.matches q) rs)
  /\ (forall q rs p,
         JS.truthy (JS.trim q) = true ->
         (In p (Dashboard.filteredPlaces q rs)
          <-> In p rs /\ Dashboard.matches q p = true))
  /\ (forall q rs,
         JS.truthy (JS.trim q) = false -> Dashboard.filteredPlaces q rs = rs)
  /\ (forall rs, Dashboard.filteredPlaces "Cafe" rs = Dashboard.filteredPlaces "cafe" rs)
  /\ (forall q1 q2 rs,
         JS.toLowerCase q1 = JS.toLowerCase q2 ->
         Dashboard.filteredPlaces q1 rs = Dashboard.filteredPlaces q2 rs)
  /\ (forall q rs,
         Dashboard.filteredPlaces (JS.toLowerCase q) rs = Dashboard.filteredPlaces q rs)
  /\ (forall rs, Dashboard.filteredPlaces "" rs = rs)
  /\ (forall q rs,
         Dashboard.filteredPlaces q (Dashboard.filteredPlaces q rs)
         = Dashboard.filteredPlaces q rs)
  /\ Dashboard.filteredPlaces "CAFE" [Examples.burger_shack; Examples.sunrise_cafe]
     = [Examples.sunrise_cafe].
Proof.
  split; [exact FilterFacts.matches_spec|].
  split; [intros q rs H; unfold Dashboard.filteredPlaces; now rewrite H|].
  split; [intros q rs p H; now apply FilterFacts.filteredPlaces_In|].
  split; [intros q rs H; unfold Dashboard.filteredPlaces; now rewrite H|].
  split; [intros rs; apply FilterFacts.filteredPlaces_case; reflexivity|].
  split; [exact FilterFacts.filteredPlaces_case|].
  split; [intros q rs; apply FilterFacts.filteredPlaces_case, JSFacts.toLowerCase_idem|].
  split; [reflexivity|].
  split; [exact FilterFacts.filteredPlaces_idem | reflexivity].
Qed.

Lemma C7_witness :
  (In Examples.sunrise_cafe
      (Dashboard.filteredPlaces "Cafe" [Examples.burger_shack; Examples.sunrise_cafe])
   <-> In Examples.sunrise_cafe [Examples.burger_shack; Examples.sunrise_cafe]
       /\ Dashboard.matches "Cafe" Examples.sunrise_cafe = true)
  /\ Dashboard.filteredPlaces "Cafe" [Examples.burger_shack; Examples.sunrise_cafe]
     = filter (Dashboard.matches "Cafe") [Examples.burger_shack; Examples.sunrise_cafe]
  /\ Dashboard.filteredPlaces "SUNRISE" [Examples.burger_shack; Examples.sunrise_cafe]
     = Dashboard.filteredPlaces "sunrise" [Examples.burger_shack; Examples.sunrise_cafe].
Proof.
  split; [|split].
  - apply (proj1 (proj2 (proj2 C7_filter_case_insensitive_idempotent))). reflexivity.
  - apply (proj1 (proj2 C7_filter_case_insensitive_idempotent)). reflexivity.
  - apply (proj1 (proj2 (proj2 (proj2 (proj2 (proj2
             C7_filter_case_insensitive_idempotent)))))). reflexivity.
Defined.

(** ** What a settled query does to each screen *)
Module MapsFacts.
Import Maps.

Lemma map_resume_ok d rs w :
  status d = "OK" -> results d = Some rs ->
  exec (fetchNearbyPlaces_resume (JsonBody d)) w
  = exec (setLoadingPlaces false) (exec (setPlaces (JS.slice0 20 rs)) w).
Proof.
  intros Hs Hr. destruct d as [st res]; simpl in *; subst.
  reflexivity.
Qed.

Lemma map_resume_failed o w :
  queryFailed o = true ->
  exec (fetchNearbyPlaces_resume o) w
  = exec (setLoadingPlaces false)
      (exec (alert "Error"
               (match o with
                | JsonBody _ => "Failed to fetch nearby places. Please check your API key."
                | _ => "Failed to fetch nearby places"
                end))
         (exec (console_error
                  (match o with
                   | JsonBody _ => "Places API error:"
                   | _ => "Fetch places error:"
                   end)) w)).
Proof.
  destruct o as [| st | la lo | [st res]]; simpl; try discriminate; [reflexivity|].
  intros H. apply negb_true_iff in H.
  unfold exec, fetchNearbyPlaces_resume, tryFinally, tryCatch, bind; simpl.
  rewrite H. reflexivity.
Qed.

(** A query settles whenever its result is a rejection or a body. *)
Lemma map_step_fetch w i url o :
  nth_error (inflight w) i = Some (Fetching url) ->
  answersQuery o = true ->
  step w (Settle i o) = Some (exec (fetchNearbyPlaces_resume o) (settled i w)).
Proof.
  intros Hi Ho. unfold step. rewrite Hi.
  destruct o; simpl in *; try discriminate; reflexivity.
Qed.

Lemma map_resume_places_kept o w :
  okResults o = None ->
  places (screen (exec (fetchNearbyPlaces_resume o) w)) = places (screen w).
Proof.
  destruct o as [| st | la lo | [st res]]; simpl; try reflexivity.
  unfold exec, fetchNearbyPlaces_resume, tryFinally, tryCatch, bind; simpl.
  destruct (String.eqb st "OK"); [|reflexivity].
  intros ->. reflexivity.
Qed.

Lemma map_resume_places_ok o rs w :
  okResults o = Some rs ->
  places (screen (exec (fetchNearbyPlaces_resume o) w)) = JS.slice0 20 rs.
Proof.
  destruct o as [| st | la lo | [st res]]; simpl; try discriminate.
  destruct (String.eqb st "OK") eqn:E; [|discriminate].
  intros ->. apply String.eqb_eq in E.
  rewrite (map_resume_ok {| status := st; results := Some rs |} rs); auto.
Qed.

Lemma map_resume_loadingPlaces o w :
  loadingPlaces (screen (exec (fetchNearbyPlaces_resume o) w)) = false.
Proof.
  unfold exec, fetchNearbyPlaces_resume, tryFinally.
  destruct (tryCatch _ _ w) as [c w']. reflexivity.
Qed.

End MapsFacts.

Module DashboardFacts.
Import Dashboard.

Lemma dash_resume_ok r d rs w :
  status d = "OK" -> results d = Some rs ->
  exec (searchNearbyPlaces_resume r (JsonBody d)) w
  = exec (setLoading false)
      (exec (setPlaces (JS.slice0 15 (filteredPlaces (searchQuery r) rs))) w).
Proof.
  intros Hs Hr. destruct d as [st res]; simpl in *; subst.
  reflexivity.
Qed.

Lemma dash_resume_failed r o w :
  queryFailed o = true ->
  exec (searchNearbyPlaces_resume r o) w
  = exec (setLoading false)
      (exec (alert "Error"
               (match o with
                | JsonBody _ => "Failed to search nearby places. Please check your API key."
                | _ => "Failed to search nearby places"
                end))
         (exec (console_error
                  (match o with
                   | JsonBody _ => "Places API error:"
                   | _ => "Search error:"
                   end)) w)).
Proof.
  destruct o as [| st | la lo | [st res]]; simpl; try discriminate; [reflexivity|].
  intros H. apply negb_true_iff in H.
  unfold exec, searchNearbyPlaces_resume, tryFinally, tryCatch, bind; simpl.
  rewrite H. reflexivity.
Qed.

Lemma dash_step_search w i r url o :
  nth_error (inflight w) i = Some (Searching r url) ->
  answersQuery o = true ->
  step w (Settle i o) = Some (exec (searchNearbyPlaces_resume r o) (settled i w)).
Proof.
  intros Hi Ho. unfold step. rewrite Hi.
  destruct o; simpl in *; try discriminate; reflexivity.
Qed.

Lemma dash_resume_places_kept r o w :
  okResults o = None ->
  places (screen (exec (searchNearbyPlaces_resume r o) w)) = places (screen w).
Proof.
  destruct o as [| st | la lo | [st res]]; simpl; try reflexivity.
  unfold exec, searchNearbyPlaces_resume, tryFinally, tryCatch, bind; simpl.
  destruct (String.eqb st "OK"); [|reflexivity].
  intros ->. reflexivity.
Qed.

Lemma dash_resume_places_ok r o rs w :
  okResults o = Some rs ->
  places (screen (exec (searchNearbyPlaces_resume r o) w))
  = JS.slice0 15 (filteredPlaces (searchQuery r) rs).
Proof.
  destruct o as [| st | la lo | [st res]]; simpl; try discriminate.
  destruct (String.eqb st "OK") eqn:E; [|discriminate].
  intros ->. apply String.eqb_eq in E.
  rewrite (dash_resume_ok r {| status := st; results := Some rs |} rs); auto.
Qed.

Lemma dash_resume_loading r o w :
  loading (screen (exec (searchNearbyPlaces_resume r o) w)) = false.
Proof.
  unfold exec, searchNearbyPlaces_resume, tryFinally.
  destruct (tryCatch _ _ w) as [c w']. reflexivity.
Qed.

End DashboardFacts.

Lemma queryFailed_okResults o : queryFailed o = true -> okResults o = None.
Proof.
  destruct o as [| st | la lo | d]; simpl; try reflexivity.
  intros H. apply negb_true_iff in H. now rewrite H.
Qed.

Lemma queryFailed_answers o : queryFailed o = true -> answersQuery o = true.
Proof. destruct o; simpl; auto. Qed.

(** ** Failed and successful queries *)

(** C10: when a query settles with a rejection of [fetch]/[response.json()]
    or with a status other than OK, the screen's [places] are what they were
    before; and however a query settles, the screen's loading flag
    ([loadingPlaces] on the map, [loading] on the dashboard) is false
    afterwards. *)
Theorem C10_failed_query_keeps_places_and_clears_loading :
  (forall (w : Maps.W) i url o,
      nth_error (inflight w) i = Some (Maps.Fetching url) ->
      answersQuery o = true ->
      exists w',
        Maps.step w (Maps.Settle i o) = Some w'
        /\ Maps.loadingPlaces (screen w') = false
        /\ (queryFailed o = true -> Maps.places (screen w') = Maps.places (screen w)))
  /\ (forall (w : Dashboard.W) i r url o,
      nth_error (inflight w) i = Some (Dashboard.Searching r url) ->
      answersQuery o = true ->
      exists w',
        Dashboard.step w (Dashboard.Settle i o) = Some w'
        /\ Dashboard.loading (screen w') = false
        /\ (queryFailed o = true ->
            Dashboard.places (screen w') = Dashboard.places (screen w))).
Proof.
  split.
  - intros w i url o Hi Ho. eexists. split; [apply (MapsFacts.map_step_fetch w i url o Hi Ho)|].
    split; [apply MapsFacts.map_resume_loadingPlaces|].
    intros Hf. now rewrite MapsFacts.map_resume_places_kept by (apply queryFailed_okResults, Hf).
  - intros w i r url o Hi Ho. eexists.
    split; [apply (DashboardFacts.dash_step_search w i r url o Hi Ho)|].
    split; [apply DashboardFacts.dash_resume_loading|].
    intros Hf. now rewrite DashboardFacts.dash_resume_places_kept by (apply queryFailed_okResults, Hf).
Qed.

Lemma C10_witness :
  (exists w',
      Maps.step Examples.maps_busy (Maps.Settle 0 Rejects) = Some w'
      /\ Maps.loadingPlaces (screen w') = false
      /\ (queryFailed Rejects = true ->
          Maps.places (screen w') = Maps.places (screen Examples.maps_busy)))
  /\ (exists w',
      Dashboard.step Examples.dashboard_busy (Dashboard.Settle 0 Examples.zero_results)
      = Some w'
      /\ Dashboard.loading (screen w') = false
      /\ (queryFailed Examples.zero_results = true ->
          Dashboard.places (screen w') = Dashboard.places (screen Examples.dashboard_busy))).
Proof.
  split.
  - eapply (proj1 C10_failed_query_keeps_places_and_clears_loading
              Examples.maps_busy 0); reflexivity.
  - eapply (proj2 C10_failed_query_keeps_places_and_clears_loading
              Examples.dashboard_busy 0); reflexivity.
Defined.

(** C3 (as the code has it): when a query's response carries a status other
    than OK, such as ZERO_RESULTS, the screen's [places] stay what they were
    (they are not emptied), the error is written to the console and an
    "Error" alert is shown, and the loading flag is false afterwards. *)
Theorem C3_non_ok_status_alerts_keeps_places :
  (forall (w : Maps.W) i url d,
      nth_error (inflight w) i = Some (Maps.Fetching url) ->
      status d <> "OK" ->
      exists w',
        Maps.step w (Maps.Settle i (JsonBody d)) = Some w'
        /\ Maps.places (screen w') = Maps.places (screen w)
        /\ log w' = (log w ++
                     [ConsoleError "Places API error:";
                      AlertShown "Error"
                        "Failed to fetch nearby places. Please check your API key."])%list
        /\ Maps.loadingPlaces (screen w') = false)
  /\ (forall (w : Dashboard.W) i r url d,
      nth_error (inflight w) i = Some (Dashboard.Searching r url) ->
      status d <> "OK" ->
      exists w',
        Dashboard.step w (Dashboard.Settle i (JsonBody d)) = Some w'
        /\ Dashboard.places (screen w') = Dashboard.places (screen w)
        /\ log w' = (log w ++
                     [ConsoleError "Places API error:";
                      AlertShown "Error"
                        "Failed to search nearby places. Please check your API key."])%list
        /\ Dashboard.loading (screen w') = false).
Proof.
  split.
  - intros w i url d Hi Hd.
    assert (Hf : queryFailed (JsonBody d) = true)
      by (simpl; apply negb_true_iff, String.eqb_neq, Hd).
    eexists. split; [apply (MapsFacts.map_step_fetch w i url (JsonBody d) Hi eq_refl)|].
    rewrite (MapsFacts.map_resume_failed _ _ Hf). simpl.
    rewrite <- app_assoc. auto.
  - intros w i r url d Hi Hd.
    assert (Hf : queryFailed (JsonBody d) = true)
      by (simpl; apply negb_true_iff, String.eqb_neq, Hd).
    eexists. split; [apply (DashboardFacts.dash_step_search w i r url (JsonBody d) Hi eq_refl)|].
    rewrite (DashboardFacts.dash_resume_failed r _ _ Hf). simpl.
    rewrite <- app_assoc. auto.
Qed.

Lemma C3_witness :
  (exists w',
      Maps.step Examples.maps_busy (Maps.Settle 0 Examples.zero_results) = Some w'
      /\ Maps.places (screen w') = [Examples.joes_diner]
      /\ log w' = [ConsoleError "Places API error:";
                   AlertShown "Error"
                     "Failed to fetch nearby places. Please check your API key."]
      /\ Maps.loadingPlaces (screen w') = false)
  /\ (exists w',
      Dashboard.step Examples.dashboard_busy (Dashboard.Settle 0 Examples.zero_results)
      = Some w'
      /\ Dashboard.places (screen w') = [Examples.joes_diner; Examples.burger_shack]
      /\ log w' = [ConsoleError "Places API error:";
                   AlertShown "Error"
                     "Failed to search nearby places. Please check your API key."]
      /\ Dashboard.loading (screen w') = false).
Proof.
  split.
  - eapply (proj1 C3_non_ok_status_alerts_keeps_places Examples.maps_busy 0
             _ {| status := "ZERO_RESULTS"; results := None |});
      [reflexivity | discriminate].
  - eapply (proj2 C3_non_ok_status_alerts_keeps_places Examples.dashboard_busy 0
             _ _ {| status := "ZERO_RESULTS"; results := None |});
      [reflexivity | discriminate].
Defined.

(** C3 as stated fails: the map shows Joe's Diner, the user switches to cafes
    and the provider answers ZERO_RESULTS; the map still shows Joe's Diner. *)
Lemma C3_counterexample :
  exists w',
    Maps.run Maps.mount (Examples.maps_busy_trace ++ [Maps.Settle 0 Examples.zero_results])
    = Some w'
    /\ Maps.places (screen w') = [Examples.joes_diner]
    /\ Maps.places (screen w') <> [].
Proof.
  eexists. split; [vm_compute; reflexivity|].
  split; [reflexivity | discriminate].
Qed.

(** C6 (as the code has it): a successful response replaces [places] by the
    first N entries of the list the screen keeps, in the provider's order.
    On the map that is the first 20 records of the response.  On the
    dashboard it is the first 15 records of the response when the search text
    is blank, and otherwise the first 15 of the records that pass the
    free-text filter, which need not be among the first 15 of the response.
    On both screens the list keeps the provider's order and never has more
    than N entries. *)
Theorem C6_places_truncated_in_provider_order :
  (forall (w : Maps.W) i url d rs,
      nth_error (inflight w) i = Some (Maps.Fetching url) ->
      status d = "OK" -> results d = Some rs ->
      exists w',
        Maps.step w (Maps.Settle i (JsonBody d)) = Some w'
        /\ Maps.places (screen w') = firstn 20 rs
        /\ length (Maps.places (screen w')) <= 20)
  /\ (forall (w : Dashboard.W) i r url d rs,
      nth_error (inflight w) i = Some (Dashboard.Searching r url) ->
      status d = "OK" -> results d = Some rs ->
      exists w',
        Dashboard.step w (Dashboard.Settle i (JsonBody d)) = Some w'
        /\ Dashboard.places (screen w')
           = firstn 15 (Dashboard.filteredPlaces (Dashboard.searchQuery r) rs)
        /\ (JS.truthy (JS.trim (Dashboard.searchQuery r)) = false ->
            Dashboard.places (screen w') = firstn 15 rs)
        /\ (JS.truthy (JS.trim (Dashboard.searchQuery r)) = true ->
            Dashboard.places (screen w')
            = firstn 15 (filter (Dashboard.matches (Dashboard.searchQuery r)) rs))
        /\ Subseq (Dashboard.places (screen w')) rs
        /\ length (Dashboard.places (screen w')) <= 15).
Proof.
  split.
  - intros w i url d rs Hi Hs Hr.
    eexists. split; [apply (MapsFacts.map_step_fetch w i url (JsonBody d) Hi eq_refl)|].
    rewrite (MapsFacts.map_resume_ok d rs _ Hs Hr). simpl. unfold JS.slice0.
    split; [reflexivity | apply firstn_le_length].
  - intros w i r url d rs Hi Hs Hr.
    eexists. split; [apply (DashboardFacts.dash_step_search w i r url (JsonBody d) Hi eq_refl)|].
    rewrite (DashboardFacts.dash_resume_ok r d rs _ Hs Hr). simpl.
    split; [reflexivity|].
    split; [intros Hb; unfold Dashboard.filteredPlaces; now rewrite Hb|].
    split; [intros Hb; unfold Dashboard.filteredPlaces; now rewrite Hb|].
    split; [apply FilterFacts.shown_Subseq | apply firstn_le_length].
Qed.

Lemma C6_witness :
  (exists w',
      Maps.step Examples.maps_busy
        (Maps.Settle 0 (Examples.ok (Examples.burgers ++ Examples.burgers))) = Some w'
      /\ Maps.places (screen w')
         = firstn 20 (Examples.burgers ++ Examples.burgers)
      /\ length (Maps.places (screen w')) <= 20)
  /\ (exists w',
      Dashboard.step Examples.dashboard_busy
        (Dashboard.Settle 0 (Examples.ok (Examples.sunrise_cafe :: Examples.burgers)))
      = Some w'
      /\ Dashboard.places (screen w')
         = firstn 15 (Dashboard.filteredPlaces "cafe"
                        (Examples.sunrise_cafe :: Examples.burgers))
      /\ (JS.truthy (JS.trim "cafe") = false ->
          Dashboard.places (screen w') = firstn 15 (Examples.sunrise_cafe :: Examples.burgers))
      /\ (JS.truthy (JS.trim "cafe") = true ->
          Dashboard.places (screen w')
          = firstn 15 (filter (Dashboard.matches "cafe")
                         (Examples.sunrise_cafe :: Examples.burgers)))
      /\ Subseq (Dashboard.places (screen w')) (Examples.sunrise_cafe :: Examples.burgers)
      /\ length (Dashboard.places (screen w')) <= 15).
Proof.
  split.
  - eapply (proj1 C6_places_truncated_in_provider_order Examples.maps_busy 0);
      reflexivity.
  - eapply (proj2 C6_places_truncated_in_provider_order Examples.dashboard_busy 0
              Examples.dashboard_busy_render);
      reflexivity.
Defined.

(** C6 as stated fails on the dashboard: under the search text "cafe" the
    response holds fifteen places that do not match and, as its sixteenth
    record, one that does.  The list shown is that sixteenth record, not the
    first 15 records of the response. *)
Lemma C6_counterexample :
  exists w',
    Dashboard.run Dashboard.mount
      (Examples.dashboard_busy_trace
       ++ [Dashboard.Settle 0 (Examples.ok (Examples.burgers ++ [Examples.sunrise_cafe]))])
    = Some w'
    /\ Dashboard.places (screen w') = [Examples.sunrise_cafe]
    /\ nth_error (Examples.burgers ++ [Examples.sunrise_cafe]) 15
       = Some Examples.sunrise_cafe
    /\ firstn 15 (Examples.burgers ++ [Examples.sunrise_cafe]) = Examples.burgers
    /\ Dashboard.places (screen w')
       <> firstn 15 (Examples.burgers ++ [Examples.sunrise_cafe]).
Proof.
  eexists. split; [vm_compute; reflexivity|].
  split; [reflexivity|]. split; [reflexivity|]. split; [reflexivity|].
  vm_compute. discriminate.
Qed.

(** C4 (as the code has it): when a dashboard query succeeds and its search
    text is not blank, the list shown is the provider's results narrowed by
    the free-text match first and cut to 15 entries afterwards. *)
Theorem C4_filtered_then_capped (w : Dashboard.W) i r url d rs :
  nth_error (inflight w) i = Some (Dashboard.Searching r url) ->
  status d = "OK" -> results d = Some rs ->
  JS.truthy (JS.trim (Dashboard.searchQuery r)) = true ->
  exists w',
    Dashboard.step w (Dashboard.Settle i (JsonBody d)) = Some w'
    /\ Dashboard.places (screen w')
       = firstn 15 (filter (Dashboard.matches (Dashboard.searchQuery r)) rs).
Proof.
  intros Hi Hs Hr Hq.
  eexists. split; [apply (DashboardFacts.dash_step_search w i r url (JsonBody d) Hi eq_refl)|].
  rewrite (DashboardFacts.dash_resume_ok r d rs _ Hs Hr). simpl.
  unfold Dashboard.filteredPlaces. now rewrite Hq.
Qed.

Lemma C4_witness :
  exists w',
    Dashboard.step Examples.dashboard_busy
      (Dashboard.Settle 0 (Examples.ok (Examples.burgers ++ [Examples.sunrise_cafe])))
    = Some w'
    /\ Dashboard.places (screen w')
       = firstn 15 (filter (Dashboard.matches "cafe")
                      (Examples.burgers ++ [Examples.sunrise_cafe])).
Proof.
  eapply (C4_filtered_then_capped Examples.dashboard_busy 0
            Examples.dashboard_busy_render); reflexivity.
Defined.

(** C4 as stated fails: the only match is the sixteenth result.  The screen
    shows it; cutting to 15 before filtering would show nothing. *)
Lemma C4_counterexample :
  exists w',
    Dashboard.run Dashboard.mount
      (Examples.dashboard_busy_trace
       ++ [Dashboard.Settle 0 (Examples.ok (Examples.burgers ++ [Examples.sunrise_cafe]))])
    = Some w'
    /\ Dashboard.places (screen w') = [Examples.sunrise_cafe]
    /\ filter (Dashboard.matches "cafe")
         (firstn 15 (Examples.burgers ++ [Examples.sunrise_cafe])) = []
    /\ Dashboard.places (screen w')
       <> filter (Dashboard.matches "cafe")
            (firstn 15 (Examples.burgers ++ [Examples.sunrise_cafe])).
Proof.
  eexists. split; [vm_compute; reflexivity|].
  split; [reflexivity|]. split; [reflexivity | discriminate].
Qed.

(** ** Two queries in flight *)

Lemma nth_error_removeAt_lt {P} (l : list P) i j :
  i < j -> nth_error (removeAt j l) i = nth_error l i.
Proof.
  revert i j; induction l as [|x l IH]; intros i j Hij; [destruct j; reflexivity|].
  destruct j as [|j]; [lia|].
  destruct i as [|i]; simpl; [reflexivity|].
  apply IH; lia.
Qed.

Lemma maps_resume_inflight o w :
  inflight (exec (Maps.fetchNearbyPlaces_resume o) w) = inflight w.
Proof.
  destruct o as [| st | la lo | [st [rs|]]]; try reflexivity;
    unfold exec, Maps.fetchNearbyPlaces_resume, tryFinally, tryCatch, bind; simpl;
    destruct (String.eqb st "OK"); reflexivity.
Qed.

Lemma dashboard_resume_inflight r o w :
  inflight (exec (Dashboard.searchNearbyPlaces_resume r o) w) = inflight w.
Proof.
  destruct o as [| st | la lo | [st [rs|]]]; try reflexivity;
    unfold exec, Dashboard.searchNearbyPlaces_resume, tryFinally, tryCatch, bind; simpl;
    destruct (String.eqb st "OK"); reflexivity.
Qed.

(** C1 (as the code has it): neither screen numbers its requests or checks
    which one a response belongs to, so the response that arrives last decides.
    Query A is older than query B when it stands before B in the pending list.
    If B's response arrives first and A's afterwards, [places] ends as A's
    (truncated, on the dashboard filtered with the search text A was sent
    under) whenever A's response is successful; it ends as B's only when A's
    response is a failure, and stays untouched when both fail. *)
Theorem C1_last_arrived_response_wins :
  (forall (w : Maps.W) i j uA uB oA oB,
      i < j ->
      nth_error (inflight w) i = Some (Maps.Fetching uA) ->
      nth_error (inflight w) j = Some (Maps.Fetching uB) ->
      answersQuery oA = true -> answersQuery oB = true ->
      exists w',
        Maps.run w [Maps.Settle j oB; Maps.Settle i oA] = Some w'
        /\ Maps.places (screen w')
           = match okResults oA, okResults oB with
             | Some rsA, _ => firstn 20 rsA
             | None, Some rsB => firstn 20 rsB
             | None, None => Maps.places (screen w)
             end)
  /\ (forall (w : Dashboard.W) i j rA rB uA uB oA oB,
      i < j ->
      nth_error (inflight w) i = Some (Dashboard.Searching rA uA) ->
      nth_error (inflight w) j = Some (Dashboard.Searching rB uB) ->
      answersQuery oA = true -> answersQuery oB = true ->
      exists w',
        Dashboard.run w [Dashboard.Settle j oB; Dashboard.Settle i oA] = Some w'
        /\ Dashboard.places (screen w')
           = match okResults oA, okResults oB with
             | Some rsA, _ =>
                 firstn 15 (Dashboard.filteredPlaces (Dashboard.searchQuery rA) rsA)
             | None, Some rsB =>
                 firstn 15 (Dashboard.filteredPlaces (Dashboard.searchQuery rB) rsB)
             | None, None => Dashboard.places (screen w)
             end).
Proof.
  split.
  - intros w i j uA uB oA oB Hij HA HB HoA HoB.
    unfold Maps.run.
    rewrite (MapsFacts.map_step_fetch w j uB oB HB HoB).
    set (w1 := exec (Maps.fetchNearbyPlaces_resume oB) (settled j w)).
    assert (HA1 : nth_error (inflight w1) i = Some (Maps.Fetching uA)).
    { unfold w1. rewrite maps_resume_inflight. simpl.
      now rewrite nth_error_removeAt_lt. }
    rewrite (MapsFacts.map_step_fetch w1 i uA oA HA1 HoA).
    eexists. split; [reflexivity|].
    destruct (okResults oA) as [rsA|] eqn:EA.
    + now rewrite (MapsFacts.map_resume_places_ok oA rsA).
    + rewrite (MapsFacts.map_resume_places_kept oA) by assumption. simpl. unfold w1.
      destruct (okResults oB) as [rsB|] eqn:EB.
      * now rewrite (MapsFacts.map_resume_places_ok oB rsB).
      * now rewrite (MapsFacts.map_resume_places_kept oB).
  - intros w i j rA rB uA uB oA oB Hij HA HB HoA HoB.
    unfold Dashboard.run.
    rewrite (DashboardFacts.dash_step_search w j rB uB oB HB HoB).
    set (w1 := exec (Dashboard.searchNearbyPlaces_resume rB oB) (settled j w)).
    assert (HA1 : nth_error (inflight w1) i = Some (Dashboard.Searching rA uA)).
    { unfold w1. rewrite dashboard_resume_inflight. simpl.
      now rewrite nth_error_removeAt_lt. }
    rewrite (DashboardFacts.dash_step_search w1 i rA uA oA HA1 HoA).
    eexists. split; [reflexivity|].
    destruct (okResults oA) as [rsA|] eqn:EA.
    + now rewrite (DashboardFacts.dash_resume_places_ok rA oA rsA).
    + rewrite (DashboardFacts.dash_resume_places_kept rA oA) by assumption. simpl. unfold w1.
      destruct (okResults oB) as [rsB|] eqn:EB.
      * now rewrite (DashboardFacts.dash_resume_places_ok rB oB rsB).
      * now rewrite (DashboardFacts.dash_resume_places_kept rB oB).
Qed.

Lemma C1_witness :
  (exists w',
      Maps.run Examples.maps_two_queries
        [Maps.Settle 1 (Examples.ok [Examples.sunrise_cafe]);
         Maps.Settle 0 (Examples.ok [Examples.joes_diner])] = Some w'
      /\ Maps.places (screen w') = [Examples.joes_diner])
  /\ (exists w',
      Dashboard.run Examples.dashboard_two_queries
        [Dashboard.Settle 1 (Examples.ok [Examples.sunrise_cafe]);
         Dashboard.Settle 0 Examples.zero_results] = Some w'
      /\ Dashboard.places (screen w') = [Examples.sunrise_cafe]).
Proof.
  split.
  - exact (proj1 C1_last_arrived_response_wins Examples.maps_two_queries 0 1 _ _
             (Examples.ok [Examples.joes_diner]) (Examples.ok [Examples.sunrise_cafe])
             (le_n 1) eq_refl eq_refl eq_refl eq_refl).
  - exact (proj2 C1_last_arrived_response_wins Examples.dashboard_two_queries 0 1 _ _ _ _
             Examples.zero_results (Examples.ok [Examples.sunrise_cafe])
             (le_n 1) eq_refl eq_refl eq_refl eq_refl).
Defined.

(** C1 as stated fails: on the map, A (restaurants) is sent, then B (cafes);
    B's response arrives, then A's.  The screen ends with A's result, not
    B's. *)
Lemma C1_counterexample :
  exists w',
    Maps.run Maps.mount
      (Examples.maps_two_queries_trace
       ++ [Maps.Settle 1 (Examples.ok [Examples.sunrise_cafe]);
           Maps.Settle 0 (Examples.ok [Examples.joes_diner])])
    = Some w'
    /\ maps_sent Examples.maps_two_queries
       = [ {| url_location := (10%float, 20%float); url_radius := 5000;
              url_type := "restaurant"; url_key := GOOGLE_PLACES_API_KEY |};
           {| url_location := (10%float, 20%float); url_radius := 5000;
              url_type := "cafe"; url_key := GOOGLE_PLACES_API_KEY |} ]
    /\ Maps.places (screen w') = [Examples.joes_diner]
    /\ Maps.places (screen w') <> firstn 20 [Examples.sunrise_cafe].
Proof.
  eexists. split; [vm_compute; reflexivity|].
  split; [reflexivity|]. split; [reflexivity | discriminate].
Qed.

(** ** Which category a query asks for *)

Lemma maps_sent_issue (s : Maps.Screen) l o u :
  maps_sent (mkWorld s (l ++ [Maps.Fetching u]) o) = (maps_sent (mkWorld s l o) ++ [u])%list.
Proof. unfold maps_sent; simpl. now rewrite flat_map_app. Qed.

Lemma dashboard_sent_issue (s : Dashboard.Screen) l o r u :
  dashboard_sent (mkWorld s (l ++ [Dashboard.Searching r u]) o)
  = (dashboard_sent (mkWorld s l o) ++ [u])%list.
Proof. unfold dashboard_sent; simpl. now rewrite flat_map_app. Qed.

(** On the map the handler passes the new type to the query as an argument:
    one query goes out, and it asks for the type just selected. *)
Lemma maps_type_change_is_fresh (w : Maps.W) t loc :
  Maps.location (screen w) = Some loc ->
  let w' := exec (Maps.handleTypeChange (screen w) t) w in
  Maps.selectedType (screen w') = t
  /\ inflight w'
     = (inflight w ++
        [Maps.Fetching {| url_location := (Maps.latitude loc, Maps.longitude loc);
                          url_radius := 5000;
                          url_type := Maps.typeString t;
                          url_key := GOOGLE_PLACES_API_KEY |}])%list.
Proof.
  intros Hloc. unfold Maps.handleTypeChange. rewrite Hloc. split; reflexivity.
Qed.

(** On the dashboard the handler sets the category and calls
    [searchNearbyPlaces()] of the same render, which reads that render's
    [selectedCategory]: one query goes out, and it asks for the category that
    was selected before the press. *)
Lemma dashboard_category_press_is_stale (w : Dashboard.W) id loc :
  Dashboard.location (screen w) = Some loc ->
  let w' := exec (Dashboard.pressCategory (screen w) id) w in
  Dashboard.selectedCategory (screen w') = id
  /\ inflight w'
     = (inflight w ++
        [Dashboard.Searching (screen w)
           {| url_location := (Dashboard.latitude loc, Dashboard.longitude loc);
              url_radius := 5000;
              url_type := Dashboard.typeOf (Dashboard.selectedCategory (screen w));
              url_key := GOOGLE_PLACES_API_KEY |}])%list.
Proof.
  intros Hloc. unfold Dashboard.pressCategory, Dashboard.searchNearbyPlaces.
  rewrite Hloc. split; reflexivity.
Qed.

(** C2 at the failing input: the dashboard knows the location and shows the
    category "all"; the user presses "cafe".  The category becomes "cafe", one
    query goes out, and its [type] is the token of "all", not the token of
    "cafe". *)
Theorem C2_dashboard_query_uses_previous_category :
  exists w w',
    Examples.dashboard_located = Some w
    /\ Dashboard.selectedCategory (screen w) = "all"
    /\ Dashboard.step w (Dashboard.User (Dashboard.PressCategory "cafe")) = Some w'
    /\ Dashboard.selectedCategory (screen w') = "cafe"
    /\ map url_type (dashboard_sent w') = ["restaurant,cafe,laundry"]
    /\ Dashboard.typeOf "cafe" = "cafe"
    /\ map url_type (dashboard_sent w') <> [Dashboard.typeOf "cafe"].
Proof.
  eexists. eexists. split; [vm_compute; reflexivity|].
  split; [reflexivity|]. split; [vm_compute; reflexivity|].
  split; [reflexivity|]. split; [reflexivity|]. split; [reflexivity | discriminate].
Qed.

(** C5: the [type] parameter of a query is a function of the category the
    query is made for.  On the dashboard "all" (and any id without a case of
    its own) gives the tokens of the three known categories joined by commas,
    and "restaurant", "cafe", "laundry" give themselves; on the map the type,
    restaurant or cafe, is sent as it is. *)
Theorem C5_category_token :
  Dashboard.typeOf "all" = JS.join "," (map Dashboard.typeOf (tl Dashboard.categories))
  /\ Dashboard.typeOf "all" = "restaurant,cafe,laundry"
  /\ Forall (fun c => Dashboard.typeOf c = c) (tl Dashboard.categories)
  /\ (forall r w,
         dashboard_sent (exec (Dashboard.searchNearbyPlaces r) w)
         = (dashboard_sent w ++
            match Dashboard.location r with
            | Some loc =>
                [ {| url_location := (Dashboard.latitude loc, Dashboard.longitude loc);
                     url_radius := 5000;
                     url_type := Dashboard.typeOf (Dashboard.selectedCategory r);
                     url_key := GOOGLE_PLACES_API_KEY |} ]
            | None => []
            end)%list)
  /\ (forall la lo t w,
         maps_sent (exec (Maps.fetchNearbyPlaces la lo t) w)
         = (maps_sent w ++
            [ {| url_location := (la, lo); url_radius := 5000;
                 url_type := Maps.typeString t;
                 url_key := GOOGLE_PLACES_API_KEY |} ])%list)
  /\ Maps.typeString Maps.restaurant = "restaurant"
  /\ Maps.typeString Maps.cafe = "cafe".
Proof.
  split; [reflexivity|]. split; [reflexivity|].
  split; [repeat constructor|].
  split.
  - intros r w. unfold Dashboard.searchNearbyPlaces.
    destruct (Dashboard.location r) as [loc|].
    + unfold exec, bind; simpl. apply dashboard_sent_issue.
    + unfold exec, alert, emit; simpl. unfold dashboard_sent; simpl.
      now rewrite app_nil_r.
  - split; [|split; reflexivity].
    intros la lo t w. unfold Maps.fetchNearbyPlaces, exec, bind; simpl.
    apply maps_sent_issue.
Qed.

(** ** Search submission on the dashboard *)





(** ** Permission denied on the map *)

Lemma maps_sent_removeAt (s s' : Maps.Screen) l o o' i r :
  nth_error l i = Some (Maps.EffectPermission r) ->
  maps_sent (mkWorld s' (removeAt i l) o') = maps_sent (mkWorld s l o).
Proof.
  unfold maps_sent; simpl. revert i.
  induction l as [|p l IH]; intros [|i] H; simpl in *; try discriminate.
  - injection H as ->. reflexivity.
  - now rewrite (IH i H).
Qed.

(** C9: when the permission request of the map's effect settles with a status
    other than "granted", the screen renders the error container with the
    text "Permission to access location was denied" and the "Try Again"
    button, and no query is sent: the only change to the pending operations
    is that the permission request is gone. *)
Theorem C9_permission_denied_error_view (w : Maps.W) i r st :
  nth_error (inflight w) i = Some (Maps.EffectPermission r) ->
  st <> "granted" ->
  exists w',
    Maps.step w (Maps.Settle i (PermissionResponse st)) = Some w'
    /\ Maps.render (screen w')
       = Maps.ErrorContainer "Location Access Required"
           "Permission to access location was denied"
           {| Maps.label := "Try Again"; Maps.onPress := Maps.PressRetry |}
    /\ JS.includes "Permission to access location was denied" "denied" = true
    /\ Maps.offered (screen w') Maps.PressRetry = true
    /\ inflight w' = removeAt i (inflight w)
    /\ maps_sent w' = maps_sent w
    /\ log w' = log w.
Proof.
  intros Hi Hst. apply String.eqb_neq in Hst.
  unfold Maps.step. rewrite Hi. simpl.
  unfold exec, Maps.effect_afterPermission, tryCatch, bind; simpl.
  rewrite Hst; simpl.
  eexists. split; [reflexivity|]. simpl.
  repeat split.
  destruct w as [s l o]; simpl in *. unfold settled; simpl.
  apply (maps_sent_removeAt s _ l o _ i r Hi).
Qed.

Lemma C9_witness :
  exists w',
    Maps.step (exec (Maps.effect Maps.initial) Maps.mount)
      (Maps.Settle 0 Examples.denied) = Some w'
    /\ Maps.render (screen w')
       = Maps.ErrorContainer "Location Access Required"
           "Permission to access location was denied"
           {| Maps.label := "Try Again"; Maps.onPress := Maps.PressRetry |}
    /\ JS.includes "Permission to access location was denied" "denied" = true
    /\ Maps.offered (screen w') Maps.PressRetry = true
    /\ inflight w' = []
    /\ maps_sent w' = []
    /\ log w' = [].
Proof.
  apply (C9_permission_denied_error_view (exec (Maps.effect Maps.initial) Maps.mount)
           0 Maps.initial "denied"); [reflexivity | discriminate].
Defined.

(** * Further properties of the screens *)

(** ** Pending lists *)

Lemma removeAt_length {P} (l : list P) i p :
  nth_error l i = Some p -> length (removeAt i l) = length l - 1.
Proof.
  revert i; induction l as [|x l IH]; intros [|i] H; simpl in *; try discriminate.
  - lia.
  - rewrite (IH i H). assert (i < length l) by (apply nth_error_Some; congruence). lia.
Qed.

Lemma nth_error_snoc {P} (l : list P) x : nth_error (l ++ [x]) (length l) = Some x.
Proof. induction l; simpl; auto. Qed.

Lemma removeAt_snoc {P} (l : list P) x : removeAt (length l) (l ++ [x]) = l.
Proof. induction l as [|y l IH]; simpl; [reflexivity | now rewrite IH]. Qed.

(** ** The map's effect, retry and recenter *)

(** X1: when the permission request of the map's effect is granted and the
    position arrives, the screen stores the position with deltas 0.05, leaves
    the loading state, and sends exactly one query, for the position just
    read and for the type selected in the render that started the effect
    (whatever type is selected by then); the places shown are not touched. *)
Theorem X1_maps_effect_granted_sends_one_query (w : Maps.W) i r la lo :
  nth_error (inflight w) i = Some (Maps.EffectPermission r) ->
  exists w',
    Maps.run w [Maps.Settle i (PermissionResponse "granted");
                Maps.Settle (length (inflight w) - 1) (LocationObject la lo)] = Some w'
    /\ Maps.location (screen w') = Some (Maps.coordsOf (la, lo))
    /\ Maps.loading (screen w') = false
    /\ Maps.loadingPlaces (screen w') = true
    /\ inflight w'
       = (removeAt i (inflight w) ++
          [Maps.Fetching {| url_location := (la, lo); url_radius := 5000;
                            url_type := Maps.typeString (Maps.selectedType r);
                            url_key := GOOGLE_PLACES_API_KEY |}])%list
    /\ Maps.places (screen w') = Maps.places (screen w)
    /\ Maps.selectedType (screen w') = Maps.selectedType (screen w)
    /\ log w' = log w.
Proof.
  intros Hi. destruct w as [s l o]; simpl in *.
  unfold Maps.run, Maps.step; simpl. rewrite Hi; simpl.
  unfold exec at 1; simpl.
  rewrite <- (removeAt_length l i _ Hi), nth_error_snoc; simpl.
  eexists. split; [reflexivity|].
  unfold settled; simpl. rewrite removeAt_snoc.
  repeat split.
Qed.

Lemma X1_witness :
  exists w',
    Maps.run (exec (Maps.effect Maps.initial) Maps.mount)
      [Maps.Settle 0 (PermissionResponse "granted");
       Maps.Settle 0 (LocationObject 10%float 20%float)] = Some w'
    /\ Maps.location (screen w') = Some (Maps.coordsOf (10%float, 20%float))
    /\ Maps.loading (screen w') = false
    /\ Maps.loadingPlaces (screen w') = true
    /\ inflight w'
       = [Maps.Fetching {| url_location := (10%float, 20%float); url_radius := 5000;
                           url_type := "restaurant";
                           url_key := GOOGLE_PLACES_API_KEY |}]
    /\ Maps.places (screen w') = []
    /\ Maps.selectedType (screen w') = Maps.restaurant
    /\ log w' = [].
Proof.
  exact (X1_maps_effect_granted_sends_one_query
           (exec (Maps.effect Maps.initial) Maps.mount) 0 Maps.initial
           10%float 20%float eq_refl).
Defined.

(** X2: when the permission request or the position request of the map's
    effect rejects, the screen shows the error container with the text
    "Failed to get location" and the "Try Again" button, the error goes to the
    console, and no query is sent. *)
Theorem X2_maps_effect_rejection_error_view (w : Maps.W) i p r :
  nth_error (inflight w) i = Some p ->
  p = Maps.EffectPermission r \/ p = Maps.EffectPosition r ->
  exists w',
    Maps.step w (Maps.Settle i Rejects) = Some w'
    /\ Maps.render (screen w')
       = Maps.ErrorContainer "Location Access Required" "Failed to get location"
           {| Maps.label := "Try Again"; Maps.onPress := Maps.PressRetry |}
    /\ inflight w' = removeAt i (inflight w)
    /\ log w' = (log w ++ [ConsoleError "Location error:"])%list
    /\ Maps.places (screen w') = Maps.places (screen w)
    /\ Maps.location (screen w') = Maps.location (screen w).
Proof.
  intros Hi Hp. unfold Maps.step. rewrite Hi.
  destruct Hp as [-> | ->]; simpl; eexists; (split; [reflexivity|]); simpl;
    repeat split.
Qed.

Lemma X2_witness :
  exists w',
    Maps.step (exec (Maps.effect Maps.initial) Maps.mount) (Maps.Settle 0 Rejects)
    = Some w'
    /\ Maps.render (screen w')
       = Maps.ErrorContainer "Location Access Required" "Failed to get location"
           {| Maps.label := "Try Again"; Maps.onPress := Maps.PressRetry |}
    /\ inflight w' = []
    /\ log w' = [ConsoleError "Location error:"]
    /\ Maps.places (screen w') = []
    /\ Maps.location (screen w') = None.
Proof.
  exact (X2_maps_effect_rejection_error_view
           (exec (Maps.effect Maps.initial) Maps.mount) 0 _ Maps.initial
           eq_refl (or_introl eq_refl)).
Defined.

(** X3: the "Try Again" button of the map's error view only flips the screen
    back to the loading view; it starts no request of its own.  When the
    effect then runs, is granted the permission and gets a position, the
    screen is the map view with the places it had, and one query is out. *)
Theorem X3_maps_retry_then_effect_recovers (w : Maps.W) la lo :
  Maps.offered (screen w) Maps.PressRetry = true ->
  exists w1 w',
    Maps.step w (Maps.User Maps.PressRetry) = Some w1
    /\ Maps.render (screen w1) = Maps.LoadingContainer "Getting your location..."
    /\ inflight w1 = inflight w
    /\ log w1 = log w
    /\ Maps.run w1 [Maps.RunEffect;
                    Maps.Settle (length (inflight w)) (PermissionResponse "granted");
                    Maps.Settle (length (inflight w)) (LocationObject la lo)] = Some w'
    /\ screen w'
       = {| Maps.location := Some (Maps.coordsOf (la, lo));
            Maps.loading := false;
            Maps.errorMsg := None;
            Maps.places := Maps.places (screen w);
            Maps.loadingPlaces := true;
            Maps.selectedType := Maps.selectedType (screen w) |}
    /\ Maps.offered (screen w') Maps.PressRecenter = true
    /\ inflight w'
       = (inflight w ++
          [Maps.Fetching {| url_location := (la, lo); url_radius := 5000;
                            url_type := Maps.typeString (Maps.selectedType (screen w));
                            url_key := GOOGLE_PLACES_API_KEY |}])%list.
Proof.
  intros Hoff. destruct w as [s l o]; simpl in *.
  rewrite Hoff.
  eexists. eexists. split; [reflexivity|].
  split; [reflexivity|]. split; [reflexivity|]. split; [reflexivity|].
  simpl. rewrite nth_error_snoc. simpl.
  unfold settled; simpl. rewrite removeAt_snoc.
  rewrite nth_error_snoc, removeAt_snoc. simpl.
  split; [reflexivity|]. repeat split.
Qed.

Lemma X3_witness :
  exists w1 w',
    Maps.step (mkWorld
                 {| Maps.location := None; Maps.loading := false;
                    Maps.errorMsg := Some "Permission to access location was denied";
                    Maps.places := []; Maps.loadingPlaces := false;
                    Maps.selectedType := Maps.restaurant |} [] [])
      (Maps.User Maps.PressRetry) = Some w1
    /\ Maps.render (screen w1) = Maps.LoadingContainer "Getting your location..."
    /\ inflight w1 = []
    /\ log w1 = []
    /\ Maps.run w1 [Maps.RunEffect;
                    Maps.Settle 0 (PermissionResponse "granted");
                    Maps.Settle 0 (LocationObject 10%float 20%float)] = Some w'
    /\ screen w'
       = {| Maps.location := Some (Maps.coordsOf (10%float, 20%float));
            Maps.loading := false;
            Maps.errorMsg := None;
            Maps.places := [];
            Maps.loadingPlaces := true;
            Maps.selectedType := Maps.restaurant |}
    /\ Maps.offered (screen w') Maps.PressRecenter = true
    /\ inflight w'
       = [Maps.Fetching {| url_location := (10%float, 20%float); url_radius := 5000;
                           url_type := "restaurant";
                           url_key := GOOGLE_PLACES_API_KEY |}].
Proof.
  exact (X3_maps_retry_then_effect_recovers
           (mkWorld
              {| Maps.location := None; Maps.loading := false;
                 Maps.errorMsg := Some "Permission to access location was denied";
                 Maps.places := []; Maps.loadingPlaces := false;
                 Maps.selectedType := Maps.restaurant |} [] [])
           10%float 20%float eq_refl).
Defined.

(** X4: when the position request of the recenter button rejects, an alert
    "Failed to get your location" is shown and nothing else happens: the
    screen state is what it was and no query is sent. *)
Theorem X4_maps_recenter_rejection_changes_nothing (w : Maps.W) i r :
  nth_error (inflight w) i = Some (Maps.CenterPosition r) ->
  exists w',
    Maps.step w (Maps.Settle i Rejects) = Some w'
    /\ screen w' = screen w
    /\ inflight w' = removeAt i (inflight w)
    /\ log w' = (log w ++ [AlertShown "Error" "Failed to get your location"])%list.
Proof.
  intros Hi. unfold Maps.step. rewrite Hi. simpl.
  eexists. split; [reflexivity|]. repeat split.
Qed.

Lemma X4_witness :
  exists w',
    Maps.step (exec (Maps.centerOnUserLocation (screen Examples.maps_busy))
                    Examples.maps_busy)
      (Maps.Settle 1 Rejects) = Some w'
    /\ screen w' = screen Examples.maps_busy
    /\ inflight w' = inflight Examples.maps_busy
    /\ log w' = [AlertShown "Error" "Failed to get your location"].
Proof.
  exact (X4_maps_recenter_rejection_changes_nothing
           (exec (Maps.centerOnUserLocation (screen Examples.maps_busy))
                 Examples.maps_busy) 1 _ eq_refl).
Defined.

(** X5: when the position request of the recenter button succeeds, the
    location is replaced by the new position with deltas 0.05, the map is
    animated to it in 1000 ms if the map view is on screen, and one query is
    sent for the new position and for the type selected in the render the
    button was pressed in; the places shown are not touched. *)
Theorem X5_maps_recenter_success (w : Maps.W) i r la lo :
  nth_error (inflight w) i = Some (Maps.CenterPosition r) ->
  exists w',
    Maps.step w (Maps.Settle i (LocationObject la lo)) = Some w'
    /\ Maps.location (screen w') = Some (Maps.coordsOf (la, lo))
    /\ Maps.places (screen w') = Maps.places (screen w)
    /\ Maps.loadingPlaces (screen w') = true
    /\ inflight w'
       = (removeAt i (inflight w) ++
          [Maps.Fetching {| url_location := (la, lo); url_radius := 5000;
                            url_type := Maps.typeString (Maps.selectedType r);
                            url_key := GOOGLE_PLACES_API_KEY |}])%list
    /\ log w'
       = (log w ++
          if negb (Maps.loading (screen w))
             && negb (Maps.errorMsg_truthy (Maps.errorMsg (screen w)))
          then [AnimateToRegion la lo 0x1.999999999999ap-5%float
                                0x1.999999999999ap-5%float 1000]
          else [])%list.
Proof.
  intros Hi. unfold Maps.step. rewrite Hi. simpl.
  destruct w as [s l o]; simpl. unfold settled; simpl.
  unfold exec, Maps.centerOnUserLocation_resume, tryCatch, bind; simpl.
  unfold Maps.animateToRegion, bind, current, Maps.render; simpl.
  destruct (Maps.loading s); simpl.
  - eexists. split; [reflexivity|]. simpl. rewrite app_nil_r. repeat split.
  - destruct (Maps.errorMsg_truthy (Maps.errorMsg s)); simpl;
      eexists; (split; [reflexivity|]); simpl; rewrite ?app_nil_r; repeat split.
Qed.

Lemma X5_witness :
  exists w',
    Maps.step (exec (Maps.centerOnUserLocation (screen Examples.maps_busy))
                    Examples.maps_busy)
      (Maps.Settle 1 (LocationObject 30%float 40%float)) = Some w'
    /\ Maps.location (screen w') = Some (Maps.coordsOf (30%float, 40%float))
    /\ Maps.places (screen w') = [Examples.joes_diner]
    /\ Maps.loadingPlaces (screen w') = true
    /\ inflight w'
       = (inflight Examples.maps_busy ++
          [Maps.Fetching {| url_location := (30%float, 40%float); url_radius := 5000;
                            url_type := "cafe";
                            url_key := GOOGLE_PLACES_API_KEY |}])%list
    /\ log w'
       = [AnimateToRegion 30%float 40%float 0x1.999999999999ap-5%float
                          0x1.999999999999ap-5%float 1000].
Proof.
  exact (X5_maps_recenter_success
           (exec (Maps.centerOnUserLocation (screen Examples.maps_busy))
                 Examples.maps_busy) 1 _ 30%float 40%float eq_refl).
Defined.

(** X6: pressing the card of a place on the map animates the map to that
    place with deltas 0.01 in 1000 ms and does nothing else: the screen
    state, and with it the places, is unchanged and no query is sent. *)
Theorem X6_maps_card_press_only_animates (w : Maps.W) i p :
  Maps.offered (screen w) (Maps.PressCard i) = true ->
  nth_error (Maps.places (screen w)) i = Some p ->
  exists w',
    Maps.step w (Maps.User (Maps.PressCard i)) = Some w'
    /\ screen w' = screen w
    /\ inflight w' = inflight w
    /\ log w'
       = (log w ++
          [AnimateToRegion (lat (Geo.location (geometry p)))
                           (lng (Geo.location (geometry p)))
                           0x1.47ae147ae147bp-7%float 0x1.47ae147ae147bp-7%float
                           1000])%list.
Proof.
  intros Hoff Hp. unfold Maps.step. rewrite Hoff.
  unfold Maps.handle. rewrite Hp.
  unfold Maps.offered in Hoff.
  unfold exec, Maps.pressCard, Maps.animateToRegion, bind, current.
  destruct w as [s l o]; cbn [screen inflight log fst snd] in *.
  destruct (Maps.render s); try discriminate.
  eexists. split; [reflexivity|]. repeat split.
Qed.

Lemma X6_witness :
  exists w',
    Maps.step Examples.maps_busy (Maps.User (Maps.PressCard 0)) = Some w'
    /\ screen w' = screen Examples.maps_busy
    /\ inflight w' = inflight Examples.maps_busy
    /\ log w'
       = [AnimateToRegion 1%float 2%float
                          0x1.47ae147ae147bp-7%float 0x1.47ae147ae147bp-7%float 1000].
Proof.
  exact (X6_maps_card_press_only_animates Examples.maps_busy 0 Examples.joes_diner
           eq_refl eq_refl).
Defined.

(** ** What holds in every reachable state of the map and the dashboard *)

Lemma flat_map_removeAt_nil {A B} (f : A -> list B) l i :
  flat_map f l = [] -> flat_map f (removeAt i l) = [].
Proof.
  revert i; induction l as [|x l IH]; intros [|i] H; simpl in *; auto.
  - apply app_eq_nil in H. tauto.
  - apply app_eq_nil in H. destruct H as [H1 H2]. now rewrite H1, IH.
Qed.

Lemma flat_map_nth_nonnil {A B} (f : A -> list B) l i x :
  nth_error l i = Some x -> f x <> [] -> flat_map f l <> [].
Proof.
  revert i; induction l as [|y l IH]; intros [|i] H Hx E; simpl in *; try discriminate.
  - injection H as ->. apply app_eq_nil in E. tauto.
  - apply app_eq_nil in E. destruct E as [_ E]. exact (IH i H Hx E).
Qed.

Lemma maps_animate_frame c ms (w : Maps.W) :
  screen (exec (Maps.animateToRegion c ms) w) = screen w
  /\ inflight (exec (Maps.animateToRegion c ms) w) = inflight w.
Proof.
  unfold exec, Maps.animateToRegion, bind, current.
  destruct (Maps.render (screen w)); split; reflexivity.
Qed.

Lemma maps_resume_location o w :
  Maps.location (screen (exec (Maps.fetchNearbyPlaces_resume o) w))
  = Maps.location (screen w).
Proof.
  destruct o as [| st | la lo | [st [rs|]]]; try reflexivity;
    unfold exec, Maps.fetchNearbyPlaces_resume, tryFinally, tryCatch, bind; simpl;
    destruct (String.eqb st "OK"); reflexivity.
Qed.

Lemma maps_resume_places_le o w :
  length (Maps.places (screen w)) <= 20 ->
  length (Maps.places (screen (exec (Maps.fetchNearbyPlaces_resume o) w))) <= 20.
Proof.
  intros H. destruct (okResults o) as [rs|] eqn:E.
  - rewrite (MapsFacts.map_resume_places_ok o rs w E). apply firstn_le_length.
  - now rewrite (MapsFacts.map_resume_places_kept o w E).
Qed.

Lemma maps_step_inv w e w' : maps_inv w -> Maps.step w e = Some w' -> maps_inv w'.
Proof.
  intros [Hlen Hloc] Hstep. destruct w as [s l o].
  unfold maps_inv, maps_sent in *; simpl in Hlen, Hloc |- *.
  unfold Maps.step in Hstep; cbn [screen inflight log] in Hstep.
  destruct e as [|a|i out].
  - injection Hstep as <-. simpl. split; [assumption|].
    intros Hn. destruct (Hloc Hn) as [H1 H2]. split; [assumption|].
    rewrite flat_map_app, H2. reflexivity.
  - destruct (Maps.offered s a); [|discriminate]. injection Hstep as <-.
    destruct a as [|t| |j]; simpl.
    + split; [assumption|]. exact Hloc.
    + unfold Maps.handleTypeChange. destruct (Maps.location s) eqn:E; simpl.
      * split; [assumption|]. intros Hn; congruence.
      * split; [assumption|]. intros _. apply Hloc; reflexivity.
    + split; [assumption|]. intros Hn. destruct (Hloc Hn) as [H1 H2].
      split; [assumption|]. rewrite flat_map_app, H2. reflexivity.
    + destruct (nth_error (Maps.places s) j) as [p|]; [|split; assumption].
      unfold Maps.pressCard.
      destruct (maps_animate_frame
                  {| Maps.latitude := lat (Geo.location (geometry p));
                     Maps.longitude := lng (Geo.location (geometry p));
                     Maps.latitudeDelta := 0x1.47ae147ae147bp-7%float;
                     Maps.longitudeDelta := 0x1.47ae147ae147bp-7%float |}
                  1000 {| screen := s; inflight := l; log := o |}) as [-> ->].
      split; assumption.
  - destruct (nth_error l i) as [p|] eqn:Hi; [|discriminate].
    destruct (Maps.resume p out) as [k|] eqn:Hk; [|discriminate].
    injection Hstep as <-.
    assert (Hrm : Maps.location s = None ->
                  flat_map (fun p => match p with Maps.Fetching u => [u] | _ => [] end)
                           (removeAt i l) = []).
    { intros Hn. apply flat_map_removeAt_nil, Hloc, Hn. }
    destruct p as [r|r|r|u].
    + destruct out as [| st | la lo | d]; simpl in Hk; try discriminate;
        injection Hk as <-.
      * simpl. split; [assumption|]. intros Hn. split; [apply Hloc, Hn | apply Hrm, Hn].
      * unfold exec, Maps.effect_afterPermission, tryCatch, bind; simpl.
        destruct (String.eqb st "granted"); simpl.
        -- split; [assumption|]. intros Hn. split; [apply Hloc, Hn|].
           rewrite flat_map_app, (Hrm Hn). reflexivity.
        -- split; [assumption|]. intros Hn. split; [apply Hloc, Hn | apply Hrm, Hn].
    + destruct out as [| st | la lo | d]; simpl in Hk; try discriminate;
        injection Hk as <-; simpl.
      * split; [assumption|]. intros Hn. split; [apply Hloc, Hn | apply Hrm, Hn].
      * split; [assumption|]. intros Hn; discriminate.
    + destruct out as [| st | la lo | d]; simpl in Hk; try discriminate;
        injection Hk as <-.
      * simpl. split; [assumption|]. intros Hn. split; [apply Hloc, Hn | apply Hrm, Hn].
      * unfold exec, Maps.centerOnUserLocation_resume, tryCatch, bind; simpl.
        unfold Maps.animateToRegion, bind, current; simpl.
        match goal with |- context [Maps.render ?x] => destruct (Maps.render x) end;
          simpl; (split; [assumption|]); intros Hn; discriminate.
    + assert (Hk' : k = Maps.fetchNearbyPlaces_resume out)
        by (destruct out; simpl in Hk; try discriminate; congruence).
      subst k. split.
      * apply maps_resume_places_le. exact Hlen.
      * rewrite maps_resume_location, maps_resume_inflight. simpl. intros Hn.
        exfalso. destruct (Hloc Hn) as [_ H2].
        refine (flat_map_nth_nonnil _ l i _ Hi _ H2). discriminate.
Qed.

Lemma maps_run_inv evs : forall w0 w1,
  maps_inv w0 -> Maps.run w0 evs = Some w1 -> maps_inv w1.
Proof.
  induction evs as [|e evs IH]; intros w0 w1 H0 Hr; simpl in Hr.
  - now injection Hr as <-.
  - destruct (Maps.step w0 e) as [w2|] eqn:E; [|discriminate].
    exact (IH w2 w1 (maps_step_inv w0 e w2 H0 E) Hr).
Qed.

(** X7: in every state the map screen can reach from its first render, by
    any sequence of effect runs, presses and settled requests, it shows at
    most 20 places; and as long as no location is known it shows no place and
    has no places query out. *)
Theorem X7_maps_reachable_invariant es w :
  Maps.run Maps.mount es = Some w ->
  length (Maps.places (screen w)) <= 20
  /\ (Maps.location (screen w) = None ->
      Maps.places (screen w) = [] /\ maps_sent w = []).
Proof.
  intros Hr. apply (maps_run_inv es Maps.mount w); [|exact Hr].
  split; simpl; [lia | auto].
Qed.

Lemma dashboard_resume_location r o w :
  Dashboard.location (screen (exec (Dashboard.searchNearbyPlaces_resume r o) w))
  = Dashboard.location (screen w).
Proof.
  destruct o as [| st | la lo | [st [rs|]]]; try reflexivity;
    unfold exec, Dashboard.searchNearbyPlaces_resume, tryFinally, tryCatch, bind; simpl;
    destruct (String.eqb st "OK"); reflexivity.
Qed.

Lemma dashboard_resume_places_le r o w :
  length (Dashboard.places (screen w)) <= 15 ->
  length (Dashboard.places (screen (exec (Dashboard.searchNearbyPlaces_resume r o) w)))
  <= 15.
Proof.
  intros H. destruct (okResults o) as [rs|] eqn:E.
  - rewrite (DashboardFacts.dash_resume_places_ok r o rs w E). apply firstn_le_length.
  - now rewrite (DashboardFacts.dash_resume_places_kept r o w E).
Qed.

Lemma dashboard_search_inv s l o :
  dashboard_inv {| screen := s; inflight := l; log := o |} ->
  dashboard_inv (exec (Dashboard.searchNearbyPlaces s) {| screen := s; inflight := l; log := o |}).
Proof.
  intros [Hlen Hloc]. unfold dashboard_inv, dashboard_sent in *; simpl in Hlen, Hloc |- *.
  unfold Dashboard.searchNearbyPlaces.
  destruct (Dashboard.location s) eqn:E; simpl.
  - split; [assumption|]. intros Hn; congruence.
  - split; [assumption|]. intros _. apply Hloc; reflexivity.
Qed.

Lemma dashboard_step_inv w e w' :
  dashboard_inv w -> Dashboard.step w e = Some w' -> dashboard_inv w'.
Proof.
  intros Hinv Hstep. destruct w as [s l o].
  unfold Dashboard.step in Hstep; cbn [screen inflight log] in Hstep.
  destruct e as [a|i out].
  - destruct (Dashboard.offered s a); [|discriminate]. injection Hstep as <-.
    destruct a as [t| | | |id| |]; unfold Dashboard.handle.
    + exact Hinv.
    + exact Hinv.
    + unfold Dashboard.handleSearch.
      match goal with |- context [if ?c then _ else _] => destruct c end;
        [apply dashboard_search_inv, Hinv | exact Hinv].
    + unfold Dashboard.handleSearch.
      match goal with |- context [if ?c then _ else _] => destruct c end;
        [apply dashboard_search_inv, Hinv | exact Hinv].
    + destruct Hinv as [Hlen Hloc].
      unfold dashboard_inv, dashboard_sent in *; simpl in Hlen, Hloc |- *.
      unfold Dashboard.pressCategory, Dashboard.searchNearbyPlaces.
      destruct (Dashboard.location s) eqn:E; simpl.
      * split; [assumption|]. intros Hn; congruence.
      * split; [assumption|]. intros _. apply Hloc; reflexivity.
    + destruct Hinv as [Hlen Hloc].
      unfold dashboard_inv, dashboard_sent in *; simpl in Hlen, Hloc |- *.
      split; [lia|]. intros Hn. split; [reflexivity | apply Hloc, Hn].
    + destruct Hinv as [Hlen Hloc].
      unfold dashboard_inv, dashboard_sent in *; simpl in Hlen, Hloc |- *.
      split; [assumption|]. intros Hn. destruct (Hloc Hn) as [H1 H2].
      split; [assumption|]. rewrite flat_map_app, H2. reflexivity.
  - destruct Hinv as [Hlen Hloc].
    unfold dashboard_inv, dashboard_sent in *; simpl in Hlen, Hloc |- *.
    destruct (nth_error l i) as [p|] eqn:Hi; [|discriminate].
    destruct (Dashboard.resume p out) as [k|] eqn:Hk; [|discriminate].
    injection Hstep as <-.
    assert (Hrm : Dashboard.location s = None ->
                  flat_map (fun p => match p with
                                     | Dashboard.Searching _ u => [u]
                                     | _ => []
                                     end) (removeAt i l) = []).
    { intros Hn. apply flat_map_removeAt_nil, Hloc, Hn. }
    destruct p as [| |r u].
    + destruct out as [| st | la lo | d]; simpl in Hk; try discriminate;
        injection Hk as <-.
      * simpl. split; [assumption|]. intros Hn. split; [apply Hloc, Hn | apply Hrm, Hn].
      * unfold exec, Dashboard.getCurrentLocation_afterPermission, tryCatch, bind; simpl.
        destruct (String.eqb st "granted"); simpl.
        -- split; [assumption|]. intros Hn. split; [apply Hloc, Hn|].
           rewrite flat_map_app, (Hrm Hn). reflexivity.
        -- split; [assumption|]. intros Hn. split; [apply Hloc, Hn | apply Hrm, Hn].
    + destruct out as [| st | la lo | d]; simpl in Hk; try discriminate;
        injection Hk as <-; simpl.
      * split; [assumption|]. intros Hn. split; [apply Hloc, Hn | apply Hrm, Hn].
      * split; [assumption|]. intros Hn; discriminate.
    + assert (Hk' : k = Dashboard.searchNearbyPlaces_resume r out)
        by (destruct out; simpl in Hk; try discriminate; congruence).
      subst k. split.
      * apply dashboard_resume_places_le. exact Hlen.
      * rewrite dashboard_resume_location, dashboard_resume_inflight. simpl. intros Hn.
        exfalso. destruct (Hloc Hn) as [_ H2].
        refine (flat_map_nth_nonnil _ l i _ Hi _ H2). discriminate.
Qed.

Lemma dashboard_run_inv evs : forall w0 w1,
  dashboard_inv w0 -> Dashboard.run w0 evs = Some w1 -> dashboard_inv w1.
Proof.
  induction evs as [|e evs IH]; intros w0 w1 H0 Hr; simpl in Hr.
  - now injection Hr as <-.
  - destruct (Dashboard.step w0 e) as [w2|] eqn:E; [|discriminate].
    exact (IH w2 w1 (dashboard_step_inv w0 e w2 H0 E) Hr).
Qed.

(** X8: in every state the dashboard can reach from its first render it
    lists at most 15 places; and as long as no location is known it lists no
    place and has no places query out. *)
Theorem X8_dashboard_reachable_invariant es w :
  Dashboard.run Dashboard.mount es = Some w ->
  length (Dashboard.places (screen w)) <= 15
  /\ (Dashboard.location (screen w) = None ->
      Dashboard.places (screen w) = [] /\ dashboard_sent w = []).
Proof.
  intros Hr. apply (dashboard_run_inv es Dashboard.mount w); [|exact Hr].
  split; simpl; [lia | auto].
Qed.

Lemma X7_witness :
  length (Maps.places (screen Examples.maps_busy)) <= 20
  /\ (Maps.location (screen Examples.maps_busy) = None ->
      Maps.places (screen Examples.maps_busy) = [] /\ maps_sent Examples.maps_busy = []).
Proof.
  exact (X7_maps_reachable_invariant Examples.maps_busy_trace Examples.maps_busy eq_refl).
Defined.

Lemma X8_witness :
  length (Dashboard.places (screen Examples.dashboard_busy)) <= 15
  /\ (Dashboard.location (screen Examples.dashboard_busy) = None ->
      Dashboard.places (screen Examples.dashboard_busy) = []
      /\ dashboard_sent Examples.dashboard_busy = []).
Proof.
  exact (X8_dashboard_reachable_invariant Examples.dashboard_busy_trace
           Examples.dashboard_busy eq_refl).
Defined.

(** ** The dashboard: location, clearing, loading flag *)

Lemma flat_map_removeAt_skip {A B} (f : A -> list B) l i x :
  nth_error l i = Some x -> f x = [] -> flat_map f (removeAt i l) = flat_map f l.
Proof.
  revert i; induction l as [|y l IH]; intros [|i] H Hx; simpl in *; try discriminate.
  - injection H as ->. now rewrite Hx.
  - now rewrite (IH i H Hx).
Qed.

(** X9: acquiring the location on the dashboard never sends a places query
    and never touches the list, the loading flag, the category or the search
    text, however its two requests settle.  At the permission request: a
    status other than "granted" shows the "Permission denied" alert, a
    rejection logs and shows the "Failed to get your location" alert, and
    "granted" only starts the position request.  At the position request: a
    rejection logs and shows the same alert, and a position is stored as the
    location.  In all five cases the queries that are out are the same as
    before, and nothing but the location ever changes on the screen. *)
Theorem X9_dashboard_location_never_queries :
  (forall (w : Dashboard.W) i,
      nth_error (inflight w) i = Some Dashboard.LocatePermission ->
      (forall st, st <> "granted" ->
         exists w',
           Dashboard.step w (Dashboard.Settle i (PermissionResponse st)) = Some w'
           /\ screen w' = screen w
           /\ inflight w' = removeAt i (inflight w)
           /\ dashboard_sent w' = dashboard_sent w
           /\ log w' = (log w ++
                        [AlertShown "Permission denied"
                           "Location permission is required to find nearby places"])%list)
      /\ (exists w',
           Dashboard.step w (Dashboard.Settle i Rejects) = Some w'
           /\ screen w' = screen w
           /\ inflight w' = removeAt i (inflight w)
           /\ dashboard_sent w' = dashboard_sent w
           /\ log w' = (log w ++
                        [ConsoleError "Error getting location:";
                         AlertShown "Error" "Failed to get your location"])%list)
      /\ (exists w',
           Dashboard.step w (Dashboard.Settle i (PermissionResponse "granted")) = Some w'
           /\ screen w' = screen w
           /\ inflight w' = (removeAt i (inflight w) ++ [Dashboard.LocatePosition])%list
           /\ dashboard_sent w' = dashboard_sent w
           /\ log w' = log w))
  /\ (forall (w : Dashboard.W) i,
      nth_error (inflight w) i = Some Dashboard.LocatePosition ->
      (exists w',
          Dashboard.step w (Dashboard.Settle i Rejects) = Some w'
          /\ screen w' = screen w
          /\ inflight w' = removeAt i (inflight w)
          /\ dashboard_sent w' = dashboard_sent w
          /\ log w' = (log w ++
                       [ConsoleError "Error getting location:";
                        AlertShown "Error" "Failed to get your location"])%list)
      /\ (forall la lo,
           exists w',
             Dashboard.step w (Dashboard.Settle i (LocationObject la lo)) = Some w'
             /\ screen w'
                = {| Dashboard.searchQuery := Dashboard.searchQuery (screen w);
                     Dashboard.selectedCategory := Dashboard.selectedCategory (screen w);
                     Dashboard.places := Dashboard.places (screen w);
                     Dashboard.loading := Dashboard.loading (screen w);
                     Dashboard.location :=
                       Some {| Dashboard.latitude := la; Dashboard.longitude := lo |} |}
             /\ inflight w' = removeAt i (inflight w)
             /\ dashboard_sent w' = dashboard_sent w
             /\ log w' = log w))
  /\ (forall (w : Dashboard.W) i la lo,
      nth_error (inflight w) i = Some Dashboard.LocatePermission ->
      exists w',
        Dashboard.run w [Dashboard.Settle i (PermissionResponse "granted");
                         Dashboard.Settle (length (inflight w) - 1) (LocationObject la lo)]
        = Some w'
        /\ screen w'
           = {| Dashboard.searchQuery := Dashboard.searchQuery (screen w);
                Dashboard.selectedCategory := Dashboard.selectedCategory (screen w);
                Dashboard.places := Dashboard.places (screen w);
                Dashboard.loading := Dashboard.loading (screen w);
                Dashboard.location :=
                  Some {| Dashboard.latitude := la; Dashboard.longitude := lo |} |}
        /\ inflight w' = removeAt i (inflight w)
        /\ log w' = log w)
  /\ (forall (w : Dashboard.W) i,
      nth_error (inflight w) i = Some Dashboard.LocatePermission ->
      exists w',
        Dashboard.run w [Dashboard.Settle i (PermissionResponse "granted");
                         Dashboard.Settle (length (inflight w) - 1) Rejects]
        = Some w'
        /\ screen w' = screen w
        /\ inflight w' = removeAt i (inflight w)
        /\ log w' = (log w ++
                     [ConsoleError "Error getting location:";
                      AlertShown "Error" "Failed to get your location"])%list).
Proof.
  assert (Hsent : forall (s s' : Dashboard.Screen) l o o' i p,
             nth_error l i = Some p ->
             match p with Dashboard.Searching _ _ => False | _ => True end ->
             dashboard_sent (mkWorld s' (removeAt i l) o') = dashboard_sent (mkWorld s l o)).
  { intros s s' l o o' i p Hi Hp. unfold dashboard_sent; simpl.
    apply (flat_map_removeAt_skip _ l i p Hi). destruct p; [reflexivity .. | contradiction]. }
  split; [|split; [|split]].
  - intros w i Hi. destruct w as [s l o]; simpl in Hi.
    split; [|split].
    + intros st Hst. apply String.eqb_neq in Hst.
      unfold Dashboard.step; simpl. rewrite Hi; simpl.
      unfold exec, Dashboard.getCurrentLocation_afterPermission, tryCatch, bind; simpl.
      rewrite Hst; simpl. eexists. split; [reflexivity|]. simpl.
      split; [destruct s; reflexivity|]. split; [reflexivity|].
      split; [apply (Hsent s _ l o _ i _ Hi I) | reflexivity].
    + unfold Dashboard.step; simpl. rewrite Hi; simpl.
      eexists. split; [reflexivity|]. simpl. rewrite <- app_assoc.
      split; [destruct s; reflexivity|]. split; [reflexivity|].
      split; [apply (Hsent s _ l o _ i _ Hi I) | reflexivity].
    + unfold Dashboard.step; simpl. rewrite Hi; simpl.
      eexists. split; [reflexivity|]. simpl.
      split; [destruct s; reflexivity|]. split; [reflexivity|].
      split; [|reflexivity].
      unfold dashboard_sent; simpl. rewrite flat_map_app; simpl. rewrite app_nil_r.
      apply (flat_map_removeAt_skip _ l i _ Hi). reflexivity.
  - intros w i Hi. destruct w as [s l o]; simpl in Hi.
    split.
    + unfold Dashboard.step; simpl. rewrite Hi; simpl.
      eexists. split; [reflexivity|]. simpl. rewrite <- app_assoc.
      split; [destruct s; reflexivity|]. split; [reflexivity|].
      split; [apply (Hsent s _ l o _ i _ Hi I) | reflexivity].
    + intros la lo. unfold Dashboard.step; simpl. rewrite Hi; simpl.
      eexists. split; [reflexivity|]. simpl.
      split; [reflexivity|]. split; [reflexivity|].
      split; [apply (Hsent s _ l o _ i _ Hi I) | reflexivity].
  - intros w i la lo Hi. destruct w as [s l o]; simpl in *.
    unfold Dashboard.run, Dashboard.step; simpl. rewrite Hi; simpl.
    unfold exec at 1; simpl.
    rewrite <- (removeAt_length l i _ Hi), nth_error_snoc; simpl.
    eexists. split; [reflexivity|].
    unfold settled; simpl. rewrite removeAt_snoc. repeat split.
  - intros w i Hi. destruct w as [s l o]; simpl in *.
    unfold Dashboard.run, Dashboard.step; simpl. rewrite Hi; simpl.
    unfold exec at 1; simpl.
    rewrite <- (removeAt_length l i _ Hi), nth_error_snoc; simpl.
    eexists. split; [reflexivity|].
    unfold settled; simpl. rewrite removeAt_snoc. rewrite <- app_assoc.
    destruct s; repeat split.
Qed.

Lemma X9_witness :
  (exists w',
      Dashboard.step Dashboard.mount (Dashboard.Settle 0 (PermissionResponse "denied"))
      = Some w'
      /\ screen w' = Dashboard.initial
      /\ inflight w' = []
      /\ dashboard_sent w' = []
      /\ log w' = [AlertShown "Permission denied"
                     "Location permission is required to find nearby places"])
  /\ (exists w',
      Dashboard.run Dashboard.mount
        [Dashboard.Settle 0 (PermissionResponse "granted"); Dashboard.Settle 0 Rejects]
      = Some w'
      /\ screen w' = Dashboard.initial
      /\ inflight w' = []
      /\ log w' = [ConsoleError "Error getting location:";
                   AlertShown "Error" "Failed to get your location"]).
Proof.
  split.
  - refine (proj1 (proj1 X9_dashboard_location_never_queries Dashboard.mount 0 eq_refl)
              "denied" _).
    discriminate.
  - exact (proj2 (proj2 (proj2 X9_dashboard_location_never_queries))
             Dashboard.mount 0 eq_refl).
Defined.



(** X11: pressing a category while no location is known only selects the
    category: no query is sent and, unlike a search submission, no alert is
    shown. *)
Theorem X11_dashboard_category_without_location (w : Dashboard.W) id :
  Dashboard.location (screen w) = None ->
  Dashboard.offered (screen w) (Dashboard.PressCategory id) = true ->
  exists w',
    Dashboard.step w (Dashboard.User (Dashboard.PressCategory id)) = Some w'
    /\ Dashboard.selectedCategory (screen w') = id
    /\ Dashboard.searchQuery (screen w') = Dashboard.searchQuery (screen w)
    /\ Dashboard.places (screen w') = Dashboard.places (screen w)
    /\ Dashboard.loading (screen w') = Dashboard.loading (screen w)
    /\ Dashboard.location (screen w') = None
    /\ inflight w' = inflight w
    /\ log w' = log w.
Proof.
  intros Hloc Hoff. unfold Dashboard.step. rewrite Hoff.
  unfold Dashboard.handle, Dashboard.pressCategory. rewrite Hloc.
  eexists. split; [reflexivity|]. simpl. repeat split. exact Hloc.
Qed.

Lemma X11_witness :
  exists w',
    Dashboard.step Dashboard.mount (Dashboard.User (Dashboard.PressCategory "cafe"))
    = Some w'
    /\ Dashboard.selectedCategory (screen w') = "cafe"
    /\ Dashboard.searchQuery (screen w') = ""
    /\ Dashboard.places (screen w') = []
    /\ Dashboard.loading (screen w') = false
    /\ Dashboard.location (screen w') = None
    /\ inflight w' = [Dashboard.LocatePermission]
    /\ log w' = [].
Proof.
  exact (X11_dashboard_category_without_location Dashboard.mount "cafe" eq_refl eq_refl).
Defined.

(** X12: the loading flag does not count the queries that are out.  With two
    queries out, as soon as one of them settles the flag is false, although
    the other is still pending: on the dashboard the search button is enabled
    again, on the map the loading overlay is gone. *)
Theorem X12_loading_cleared_while_query_pending :
  (forall (w : Dashboard.W) i j rA rB uA uB o,
      i < j ->
      nth_error (inflight w) i = Some (Dashboard.Searching rA uA) ->
      nth_error (inflight w) j = Some (Dashboard.Searching rB uB) ->
      answersQuery o = true ->
      exists w',
        Dashboard.step w (Dashboard.Settle j o) = Some w'
        /\ Dashboard.loading (screen w') = false
        /\ Dashboard.offered (screen w') Dashboard.PressSearch = true
        /\ nth_error (inflight w') i = Some (Dashboard.Searching rA uA))
  /\ (forall (w : Maps.W) i j uA uB o,
      i < j ->
      nth_error (inflight w) i = Some (Maps.Fetching uA) ->
      nth_error (inflight w) j = Some (Maps.Fetching uB) ->
      answersQuery o = true ->
      exists w',
        Maps.step w (Maps.Settle j o) = Some w'
        /\ Maps.loadingPlaces (screen w') = false
        /\ nth_error (inflight w') i = Some (Maps.Fetching uA)).
Proof.
  split.
  - intros w i j rA rB uA uB o Hij HA HB Ho.
    eexists. split; [apply (DashboardFacts.dash_step_search w j rB uB o HB Ho)|].
    assert (Hl := DashboardFacts.dash_resume_loading rB o (settled j w)).
    split; [exact Hl|]. split; [unfold Dashboard.offered; now rewrite Hl|].
    rewrite dashboard_resume_inflight. simpl. now rewrite nth_error_removeAt_lt.
  - intros w i j uA uB o Hij HA HB Ho.
    eexists. split; [apply (MapsFacts.map_step_fetch w j uB o HB Ho)|].
    split; [apply MapsFacts.map_resume_loadingPlaces|].
    rewrite maps_resume_inflight. simpl. now rewrite nth_error_removeAt_lt.
Qed.

Lemma X12_witness :
  (exists w',
      Dashboard.step Examples.dashboard_two_queries
        (Dashboard.Settle 1 Examples.zero_results) = Some w'
      /\ Dashboard.loading (screen w') = false
      /\ Dashboard.offered (screen w') Dashboard.PressSearch = true
      /\ length (inflight w') = 1)
  /\ (exists w',
      Maps.step Examples.maps_two_queries (Maps.Settle 1 Rejects) = Some w'
      /\ Maps.loadingPlaces (screen w') = false
      /\ length (inflight w') = 1).
Proof.
  split.
  - destruct (proj1 X12_loading_cleared_while_query_pending
                Examples.dashboard_two_queries 0 1 _ _ _ _ Examples.zero_results
                (le_n 1) eq_refl eq_refl eq_refl) as [w' [H1 [H2 [H3 H4]]]].
    exists w'. split; [exact H1|]. split; [exact H2|]. split; [exact H3|].
    injection H1 as <-. reflexivity.
  - destruct (proj2 X12_loading_cleared_while_query_pending
                Examples.maps_two_queries 0 1 _ _ Rejects
                (le_n 1) eq_refl eq_refl eq_refl) as [w' [H1 [H2 H3]]].
    exists w'. split; [exact H1|]. split; [exact H2|].
    injection H1 as <-. reflexivity.
Defined.

(** X13: while a query is out and [loading] is true the search button is
    disabled, but submitting from the keyboard is not: with a known location
    and a search text that is not blank, it sends a second query. *)
Theorem X13_dashboard_keyboard_submit_while_loading (w : Dashboard.W) loc :
  Dashboard.loading (screen w) = true ->
  Dashboard.location (screen w) = Some loc ->
  JS.truthy (JS.trim (Dashboard.searchQuery (screen w))) = true ->
  Dashboard.step w (Dashboard.User Dashboard.PressSearch) = None
  /\ exists w',
       Dashboard.step w (Dashboard.User Dashboard.SubmitEditing) = Some w'
       /\ inflight w'
          = (inflight w ++
             [Dashboard.Searching (screen w)
                {| url_location := (Dashboard.latitude loc, Dashboard.longitude loc);
                   url_radius := 5000;
                   url_type := Dashboard.typeOf (Dashboard.selectedCategory (screen w));
                   url_key := GOOGLE_PLACES_API_KEY |}])%list.
Proof.
  intros Hl Hloc Hq. unfold Dashboard.step, Dashboard.offered. rewrite Hl. simpl.
  split; [reflexivity|].
  unfold Dashboard.handleSearch, Dashboard.searchNearbyPlaces. rewrite Hq, Hloc. simpl.
  eexists. split; reflexivity.
Qed.

Lemma X13_witness :
  Dashboard.step Examples.dashboard_busy (Dashboard.User Dashboard.PressSearch) = None
  /\ exists w',
       Dashboard.step Examples.dashboard_busy (Dashboard.User Dashboard.SubmitEditing)
       = Some w'
       /\ inflight w'
          = (inflight Examples.dashboard_busy ++
             [Dashboard.Searching (screen Examples.dashboard_busy)
                {| url_location := (10%float, 20%float);
                   url_radius := 5000;
                   url_type := "restaurant";
                   url_key := GOOGLE_PLACES_API_KEY |}])%list.
Proof.
  exact (X13_dashboard_keyboard_submit_while_loading Examples.dashboard_busy
           {| Dashboard.latitude := 10%float; Dashboard.longitude := 20%float |}
           eq_refl eq_refl eq_refl).
Defined.

(** ** The list a successful response produces *)

Lemma Subseq_In {A} (l m : list A) x : Subseq l m -> In x l -> In x m.
Proof.
  induction 1 as [|y l m H IH|y l m H IH]; simpl; intros Hx; auto.
  destruct Hx as [->|Hx]; auto.
Qed.

Lemma Subseq_map {A B} (f : A -> B) l m : Subseq l m -> Subseq (map f l) (map f m).
Proof. induction 1; simpl; constructor; assumption. Qed.

Lemma Subseq_NoDup {A} (l m : list A) : Subseq l m -> NoDup m -> NoDup l.
Proof.
  induction 1 as [|y l m H IH|y l m H IH]; intros Hm.
  - constructor.
  - inversion Hm; subst; auto.
  - inversion Hm as [|? ? Hy Hm']; subst. constructor; auto.
    intros Hin. apply Hy. eapply Subseq_In; eassumption.
Qed.

(** X14: if the place ids of a successful response are pairwise distinct,
    so are the ids of the places the screen shows afterwards (they are the
    keys of the rendered markers and cards), on the map and on the
    dashboard. *)
Theorem X14_shown_place_ids_stay_distinct :
  (forall (w : Maps.W) i url d rs,
      nth_error (inflight w) i = Some (Maps.Fetching url) ->
      status d = "OK" -> results d = Some rs ->
      NoDup (map place_id rs) ->
      exists w',
        Maps.step w (Maps.Settle i (JsonBody d)) = Some w'
        /\ NoDup (map place_id (Maps.places (screen w'))))
  /\ (forall (w : Dashboard.W) i r url d rs,
      nth_error (inflight w) i = Some (Dashboard.Searching r url) ->
      status d = "OK" -> results d = Some rs ->
      NoDup (map place_id rs) ->
      exists w',
        Dashboard.step w (Dashboard.Settle i (JsonBody d)) = Some w'
        /\ NoDup (map place_id (Dashboard.places (screen w')))).
Proof.
  split.
  - intros w i url d rs Hi Hs Hr Hnd.
    eexists. split; [apply (MapsFacts.map_step_fetch w i url (JsonBody d) Hi eq_refl)|].
    rewrite (MapsFacts.map_resume_ok d rs _ Hs Hr). simpl.
    apply (Subseq_NoDup _ (map place_id rs)); [|exact Hnd].
    apply Subseq_map, JSFacts.firstn_Subseq.
  - intros w i r url d rs Hi Hs Hr Hnd.
    eexists. split; [apply (DashboardFacts.dash_step_search w i r url (JsonBody d) Hi eq_refl)|].
    rewrite (DashboardFacts.dash_resume_ok r d rs _ Hs Hr). simpl.
    apply (Subseq_NoDup _ (map place_id rs)); [|exact Hnd].
    apply Subseq_map, FilterFacts.shown_Subseq.
Qed.

Lemma X14_witness :
  (exists w',
      Maps.step Examples.maps_busy
        (Maps.Settle 0 (Examples.ok (Examples.sunrise_cafe :: Examples.burgers))) = Some w'
      /\ NoDup (map place_id (Maps.places (screen w'))))
  /\ (exists w',
      Dashboard.step Examples.dashboard_busy
        (Dashboard.Settle 0 (Examples.ok (Examples.sunrise_cafe :: Examples.burgers)))
      = Some w'
      /\ NoDup (map place_id (Dashboard.places (screen w')))).
Proof.
  assert (Hnd : NoDup (map place_id (Examples.sunrise_cafe :: Examples.burgers))).
  { vm_compute. repeat (constructor; [simpl; intuition discriminate|]). constructor. }
  split.
  - exact (proj1 X14_shown_place_ids_stay_distinct Examples.maps_busy 0 _
             {| status := "OK";
                results := Some (Examples.sunrise_cafe :: Examples.burgers) |}
             _ eq_refl eq_refl eq_refl Hnd).
  - exact (proj2 X14_shown_place_ids_stay_distinct Examples.dashboard_busy 0
             Examples.dashboard_busy_render _
             {| status := "OK";
                results := Some (Examples.sunrise_cafe :: Examples.burgers) |}
             _ eq_refl eq_refl eq_refl Hnd).
Defined.

(** X15: after a successful dashboard query sent under a search text that is
    not blank, every place listed matches the text and comes from the
    response; and when the response holds at most 15 matching places, every
    matching place of the response is listed. *)
Theorem X15_dashboard_filter_sound_and_complete (w : Dashboard.W) i r url d rs :
  nth_error (inflight w) i = Some (Dashboard.Searching r url) ->
  status d = "OK" -> results d = Some rs ->
  JS.truthy (JS.trim (Dashboard.searchQuery r)) = true ->
  exists w',
    Dashboard.step w (Dashboard.Settle i (JsonBody d)) = Some w'
    /\ (forall p, In p (Dashboard.places (screen w')) ->
                  In p rs /\ Dashboard.matches (Dashboard.searchQuery r) p = true)
    /\ (length (filter (Dashboard.matches (Dashboard.searchQuery r)) rs) <= 15 ->
        forall p, In p rs -> Dashboard.matches (Dashboard.searchQuery r) p = true ->
                  In p (Dashboard.places (screen w'))).
Proof.
  intros Hi Hs Hr Hq.
  eexists. split; [apply (DashboardFacts.dash_step_search w i r url (JsonBody d) Hi eq_refl)|].
  rewrite (DashboardFacts.dash_resume_ok r d rs _ Hs Hr). simpl.
  unfold Dashboard.filteredPlaces, JS.slice0. rewrite Hq. split.
  - intros p Hp. apply filter_In.
    eapply Subseq_In; [apply JSFacts.firstn_Subseq | exact Hp].
  - intros Hle p Hp Hm. rewrite firstn_all2 by exact Hle.
    apply filter_In. split; assumption.
Qed.

Lemma X15_witness :
  exists w',
    Dashboard.step Examples.dashboard_busy
      (Dashboard.Settle 0 (Examples.ok [Examples.burger_shack; Examples.sunrise_cafe]))
    = Some w'
    /\ (forall p, In p (Dashboard.places (screen w')) ->
                  In p [Examples.burger_shack; Examples.sunrise_cafe]
                  /\ Dashboard.matches "cafe" p = true)
    /\ (length (filter (Dashboard.matches "cafe")
                  [Examples.burger_shack; Examples.sunrise_cafe]) <= 15 ->
        forall p, In p [Examples.burger_shack; Examples.sunrise_cafe] ->
                  Dashboard.matches "cafe" p = true ->
                  In p (Dashboard.places (screen w'))).
Proof.
  exact (X15_dashboard_filter_sound_and_complete Examples.dashboard_busy 0
           Examples.dashboard_busy_render _
           {| status := "OK";
              results := Some [Examples.burger_shack; Examples.sunrise_cafe] |}
           _ eq_refl eq_refl eq_refl eq_refl).
Defined.

Lemma truthy_trim_blank s :
  JS.truthy (JS.trim s) = negb (forallb JS.isWhiteSpace (list_ascii_of_string s)).
Proof.
  induction s as [|c s IH]; [reflexivity|].
  unfold JS.trim in *. simpl.
  destruct (JS.isWhiteSpace c) eqn:E; simpl; [exact IH|].
  destruct (JS.trimEnd s); [rewrite E|]; reflexivity.
Qed.

(** X16: a search text made of white space only counts as no search text:
    with the category "all", submitting it changes nothing and sends
    nothing; and the response of a query sent under it is not filtered, the
    list is its first 15 results. *)
Theorem X16_dashboard_blank_search_text (q : string) :
  forallb JS.isWhiteSpace (list_ascii_of_string q) = true ->
  (forall w : Dashboard.W,
      Dashboard.searchQuery (screen w) = q ->
      Dashboard.selectedCategory (screen w) = "all" ->
      Dashboard.step w (Dashboard.User Dashboard.SubmitEditing) = Some w)
  /\ (forall (w : Dashboard.W) i r url d rs,
      Dashboard.searchQuery r = q ->
      nth_error (inflight w) i = Some (Dashboard.Searching r url) ->
      status d = "OK" -> results d = Some rs ->
      exists w',
        Dashboard.step w (Dashboard.Settle i (JsonBody d)) = Some w'
        /\ Dashboard.places (screen w') = firstn 15 rs).
Proof.
  intros Hq.
  assert (Ht : JS.truthy (JS.trim q) = false) by (now rewrite truthy_trim_blank, Hq).
  split.
  - intros w Hw Hc. unfold Dashboard.step; simpl.
    unfold Dashboard.handleSearch. rewrite Hw, Ht, Hc. reflexivity.
  - intros w i r url d rs Hr' Hi Hs Hr.
    eexists. split; [apply (DashboardFacts.dash_step_search w i r url (JsonBody d) Hi eq_refl)|].
    rewrite (DashboardFacts.dash_resume_ok r d rs _ Hs Hr). simpl.
    unfold Dashboard.filteredPlaces. now rewrite Hr', Ht.
Qed.

Lemma X16_witness :
  forallb JS.isWhiteSpace (list_ascii_of_string "  ") = true
  /\ Dashboard.step
       (mkWorld {| Dashboard.searchQuery := "  "; Dashboard.selectedCategory := "all";
                   Dashboard.places := []; Dashboard.loading := false;
                   Dashboard.location := None |} [] [])
       (Dashboard.User Dashboard.SubmitEditing)
     = Some (mkWorld {| Dashboard.searchQuery := "  "; Dashboard.selectedCategory := "all";
                        Dashboard.places := []; Dashboard.loading := false;
                        Dashboard.location := None |} [] []).
Proof.
  split; [reflexivity|].
  apply (proj1 (X16_dashboard_blank_search_text "  " eq_refl)); reflexivity.
Defined.

(** ** Labels, icons and marker colours *)

Lemma includes_In types tag : PlaceTags.includes types tag = true <-> In tag types.
Proof.
  unfold PlaceTags.includes. rewrite existsb_exists. split.
  - intros [x [Hx E]]. apply String.eqb_eq in E. now subst.
  - intros H. exists tag. split; [exact H | apply String.eqb_refl].
Qed.

Lemma includes_same_tags types types' tag :
  (forall t, In t types <-> In t types') ->
  PlaceTags.includes types tag = PlaceTags.includes types' tag.
Proof.
  intros H. apply eq_true_iff_eq. rewrite !includes_In. apply H.
Qed.

(** X17: the label and the icon the dashboard gives a place always belong
    together (Laundry with the shirt, the cafe label of the source with the
    cup, Restaurant with the restaurant icon, Other with the pin); a place tagged "laundry" is a
    Laundry whatever else it is tagged; and label, icon and the map's marker
    colour depend only on which tags a place has, not on their order or
    repetition. *)
Theorem X17_place_label_icon_agree :
  (forall types,
      In (PlaceTags.getPlaceType types, PlaceTags.getPlaceIcon types)
         [("Laundry", "shirt-outline");
          (PlaceTags.Cafe_e, "cafe-outline");
          ("Restaurant", "restaurant-outline");
          ("Other", "location-outline")])
  /\ (forall types,
         In "laundry" types ->
         PlaceTags.getPlaceType types = "Laundry"
         /\ PlaceTags.getPlaceIcon types = "shirt-outline")
  /\ (forall types types',
         (forall t, In t types <-> In t types') ->
         PlaceTags.getPlaceType types = PlaceTags.getPlaceType types'
         /\ PlaceTags.getPlaceIcon types = PlaceTags.getPlaceIcon types'
         /\ PlaceTags.getMarkerColor types = PlaceTags.getMarkerColor types').
Proof.
  split; [|split].
  - intros types. unfold PlaceTags.getPlaceType, PlaceTags.getPlaceIcon.
    destruct (PlaceTags.includes types "laundry"); [simpl; auto|].
    destruct (PlaceTags.includes types "cafe" || PlaceTags.includes types "coffee");
      [simpl; auto|].
    destruct (PlaceTags.includes types "restaurant" || PlaceTags.includes types "food");
      simpl; auto.
  - intros types H. apply includes_In in H.
    unfold PlaceTags.getPlaceType, PlaceTags.getPlaceIcon. rewrite H. split; reflexivity.
  - intros types types' H.
    unfold PlaceTags.getPlaceType, PlaceTags.getPlaceIcon, PlaceTags.getMarkerColor.
    rewrite !(includes_same_tags types types' _ H). repeat split.
Qed.

Lemma X17_witness :
  PlaceTags.getPlaceType ["cafe"; "laundry"] = "Laundry"
  /\ PlaceTags.getPlaceIcon ["cafe"; "laundry"] = "shirt-outline".
Proof.
  apply (proj1 (proj2 X17_place_label_icon_agree) ["cafe"; "laundry"]).
  simpl. auto.
Defined.

(** ** Two category presses in a row *)

(** X18: when the location is known, each press of a category button on the
    dashboard sends one query, for the category that was selected before that
    press: of two presses in a row, the second sends the category of the
    first, and the category selected in the end is the one of the second. *)
Theorem X18_dashboard_two_category_presses (w : Dashboard.W) a b loc :
  Dashboard.location (screen w) = Some loc ->
  Dashboard.offered (screen w) (Dashboard.PressCategory a) = true ->
  Dashboard.offered (screen w) (Dashboard.PressCategory b) = true ->
  exists w',
    Dashboard.run w [Dashboard.User (Dashboard.PressCategory a);
                     Dashboard.User (Dashboard.PressCategory b)] = Some w'
    /\ Dashboard.selectedCategory (screen w') = b
    /\ map url_type (dashboard_sent w')
       = (map url_type (dashboard_sent w) ++
          [Dashboard.typeOf (Dashboard.selectedCategory (screen w));
           Dashboard.typeOf a])%list.
Proof.
  intros Hloc Ha Hb. destruct w as [s l o]; simpl in *.
  rewrite Ha, Hb.
  unfold Dashboard.pressCategory, Dashboard.searchNearbyPlaces.
  rewrite Hloc. simpl. rewrite Hloc.
  eexists. split; [reflexivity|]. simpl. split; [reflexivity|].
  unfold dashboard_sent; simpl.
  rewrite !flat_map_app, !map_app, <- app_assoc. reflexivity.
Qed.

Lemma X18_witness :
  exists w',
    Dashboard.run (Examples.orDefault Examples.dashboard_located Dashboard.mount)
      [Dashboard.User (Dashboard.PressCategory "cafe");
       Dashboard.User (Dashboard.PressCategory "laundry")] = Some w'
    /\ Dashboard.selectedCategory (screen w') = "laundry"
    /\ map url_type (dashboard_sent w') = ["restaurant,cafe,laundry"; "cafe"].
Proof.
  exact (X18_dashboard_two_category_presses
           (Examples.orDefault Examples.dashboard_located Dashboard.mount)
           "cafe" "laundry"
           {| Dashboard.latitude := 10%float; Dashboard.longitude := 20%float |}
           eq_refl eq_refl eq_refl).
Defined.

(** ** Signing in *)

Lemma one_pending {P} (l : list P) i p :
  length l = 1 -> nth_error l i = Some p -> i = 0 /\ l = [p].
Proof.
  destruct l as [|x [|y l]]; simpl; try discriminate. intros _.
  destruct i as [|i]; simpl; [intros [= ->]; auto | destruct i; discriminate].
Qed.

Lemma signin_step_inv w e w' : signin_inv w -> SignIn.step w e = Some w' -> signin_inv w'.
Proof.
  intros Hinv Hstep. destruct w as [s l o]. unfold signin_inv in *; simpl in Hinv.
  unfold SignIn.step in Hstep; cbn [screen inflight log] in Hstep.
  destruct e as [|a|i out].
  - injection Hstep as <-. exact Hinv.
  - destruct (SignIn.offered s a) eqn:Hoff; [|discriminate]. injection Hstep as <-.
    destruct a; simpl; try exact Hinv.
    simpl in Hoff. apply negb_true_iff in Hoff. rewrite Hoff in Hinv. subst l.
    unfold SignIn.onSignInPress. destruct (SignIn.isLoaded s); simpl; [reflexivity|].
    now rewrite Hoff.
  - destruct (nth_error l i) as [p|] eqn:Hi; [|discriminate].
    destruct (SignIn.resume p out) as [k|] eqn:Hk; [|discriminate].
    injection Hstep as <-.
    destruct (SignIn.loading s) eqn:El; [|subst l; destruct i; discriminate].
    destruct (one_pending l i p Hinv Hi) as [-> ->].
    destruct p, out; simpl in Hk; try discriminate; injection Hk as <-; simpl;
      rewrite ?El; reflexivity.
Qed.

Lemma signin_run_inv evs : forall w0 w1,
  signin_inv w0 -> SignIn.run w0 evs = Some w1 -> signin_inv w1.
Proof.
  induction evs as [|e evs IH]; intros w0 w1 H0 Hr; simpl in Hr.
  - now injection Hr as <-.
  - destruct (SignIn.step w0 e) as [w2|] eqn:E; [|discriminate].
    exact (IH w2 w1 (signin_step_inv w0 e w2 H0 E) Hr).
Qed.

(** X19: in every state the sign-in screen reaches from its first render,
    [loading] is true exactly while one call to the provider is out and no
    call is out while it is false: the button, disabled while loading, never
    lets two sign-in attempts overlap. *)
Theorem X19_signin_at_most_one_call es w :
  SignIn.run SignIn.mount es = Some w ->
  length (inflight w) <= 1
  /\ (SignIn.loading (screen w) = true <-> length (inflight w) = 1)
  /\ (SignIn.loading (screen w) = false <-> inflight w = []).
Proof.
  intros Hr.
  assert (H : signin_inv w) by (apply (signin_run_inv es SignIn.mount w); [reflexivity | exact Hr]).
  unfold signin_inv in H. destruct (SignIn.loading (screen w)).
  - rewrite H. repeat split; auto; try discriminate.
    intros E; rewrite E in H; discriminate.
  - rewrite H. simpl. repeat split; auto; discriminate.
Qed.

Lemma X19_witness :
  length (inflight AuthExamples.signin_submitted) <= 1
  /\ (SignIn.loading (screen AuthExamples.signin_submitted) = true
      <-> length (inflight AuthExamples.signin_submitted) = 1)
  /\ (SignIn.loading (screen AuthExamples.signin_submitted) = false
      <-> inflight AuthExamples.signin_submitted = []).
Proof.
  exact (X19_signin_at_most_one_call AuthExamples.signin_submitted_trace
           AuthExamples.signin_submitted eq_refl).
Defined.

(** X20: pressing "Sign In" before the provider is loaded does nothing at
    all.  Once it is loaded, the press sets [loading] and makes one
    [signIn.create] call with the identifier and password on screen; when
    that call yields a session and [setActive] resolves, the router is told
    to replace the route by "/", [loading] is false again, and no alert or
    console output was produced. *)
Theorem X20_signin_press_and_success (w : SignIn.W) sid :
  SignIn.loading (screen w) = false ->
  (SignIn.isLoaded (screen w) = false ->
   SignIn.step w (SignIn.User SignIn.PressSignIn) = Some w)
  /\ (SignIn.isLoaded (screen w) = true ->
      exists w1 w',
        SignIn.step w (SignIn.User SignIn.PressSignIn) = Some w1
        /\ SignIn.loading (screen w1) = true
        /\ inflight w1
           = (inflight w ++
              [SignIn.Creating (SignIn.emailOrUsername (screen w))
                               (SignIn.password (screen w))])%list
        /\ SignIn.run w1 [SignIn.Settle (length (inflight w)) (Auth.SessionCreated sid);
                          SignIn.Settle (length (inflight w)) Auth.Resolves] = Some w'
        /\ SignIn.router (screen w') = (SignIn.router (screen w) ++ [Auth.Replace "/"])%list
        /\ SignIn.loading (screen w') = false
        /\ inflight w' = inflight w
        /\ log w' = log w).
Proof.
  intros Hl. destruct w as [s l o]; simpl in *.
  unfold SignIn.step, SignIn.offered; simpl. rewrite Hl; simpl.
  unfold SignIn.onSignInPress. split; intros Hload; rewrite Hload; simpl.
  - reflexivity.
  - eexists. eexists. split; [reflexivity|]. simpl.
    split; [reflexivity|]. split; [reflexivity|].
    rewrite nth_error_snoc; simpl. unfold settled; simpl. rewrite removeAt_snoc.
    rewrite nth_error_snoc; simpl. rewrite removeAt_snoc.
    repeat split.
Qed.

Lemma X20_witness :
  exists w1 w',
    SignIn.step (mkWorld {| SignIn.isLoaded := true; SignIn.emailOrUsername := "ann";
                            SignIn.password := "pw"; SignIn.loading := false;
                            SignIn.router := [] |} [] [])
      (SignIn.User SignIn.PressSignIn) = Some w1
    /\ SignIn.loading (screen w1) = true
    /\ inflight w1 = [SignIn.Creating "ann" "pw"]
    /\ SignIn.run w1 [SignIn.Settle 0 (Auth.SessionCreated (Some "sess_1"));
                      SignIn.Settle 0 Auth.Resolves] = Some w'
    /\ SignIn.router (screen w') = [Auth.Replace "/"]
    /\ SignIn.loading (screen w') = false
    /\ inflight w' = []
    /\ log w' = [].
Proof.
  exact (proj2 (X20_signin_press_and_success
                  (mkWorld {| SignIn.isLoaded := true; SignIn.emailOrUsername := "ann";
                              SignIn.password := "pw"; SignIn.loading := false;
                              SignIn.router := [] |} [] [])
                  (Some "sess_1") eq_refl) eq_refl).
Defined.

(** X21: when [signIn.create] or [setActive] rejects, an "Error" alert shows
    the message chosen from the rejection (an Error's own message; otherwise
    the message of the first entry of its [errors] if that is present and not
    empty; otherwise "Failed to sign in"), the error is logged, [loading] is
    false afterwards, and the router is not called. *)
Theorem X21_signin_rejection (w : SignIn.W) i p err :
  nth_error (inflight w) i = Some p ->
  exists w',
    SignIn.step w (SignIn.Settle i (Auth.AuthRejects err)) = Some w'
    /\ log w' = (log w ++
                 [AlertShown "Error" (Auth.errorMessage err "Failed to sign in");
                  ConsoleError "Sign in error:"])%list
    /\ SignIn.loading (screen w') = false
    /\ SignIn.router (screen w') = SignIn.router (screen w)
    /\ SignIn.emailOrUsername (screen w') = SignIn.emailOrUsername (screen w)
    /\ SignIn.password (screen w') = SignIn.password (screen w)
    /\ inflight w' = removeAt i (inflight w).
Proof.
  intros Hi. unfold SignIn.step. rewrite Hi.
  destruct p; simpl; eexists; (split; [reflexivity|]); simpl;
    rewrite <- app_assoc; repeat split.
Qed.

Lemma X21_witness :
  exists w',
    SignIn.step (mkWorld {| SignIn.isLoaded := true; SignIn.emailOrUsername := "ann";
                            SignIn.password := "pw"; SignIn.loading := true;
                            SignIn.router := [] |} [SignIn.Creating "ann" "pw"] [])
      (SignIn.Settle 0 (Auth.AuthRejects (Auth.OtherValue (Some [Some "Password is incorrect"]))))
    = Some w'
    /\ log w' = [AlertShown "Error" "Password is incorrect"; ConsoleError "Sign in error:"]
    /\ SignIn.loading (screen w') = false
    /\ SignIn.router (screen w') = []
    /\ SignIn.emailOrUsername (screen w') = "ann"
    /\ SignIn.password (screen w') = "pw"
    /\ inflight w' = [].
Proof.
  exact (X21_signin_rejection
           (mkWorld {| SignIn.isLoaded := true; SignIn.emailOrUsername := "ann";
                       SignIn.password := "pw"; SignIn.loading := true;
                       SignIn.router := [] |} [SignIn.Creating "ann" "pw"] [])
           0 _ (Auth.OtherValue (Some [Some "Password is incorrect"])) eq_refl).
Defined.

(** ** Signing up *)

Lemma signup_step_inv w e w' : signup_inv w -> SignUp.step w e = Some w' -> signup_inv w'.
Proof.
  intros Hinv Hstep. destruct w as [s l o]. unfold signup_inv in *; simpl in Hinv.
  unfold SignUp.step in Hstep; cbn [screen inflight log] in Hstep.
  destruct e as [|a|i out].
  - injection Hstep as <-. exact Hinv.
  - destruct (SignUp.offered s a) eqn:Hoff; [|discriminate]. injection Hstep as <-.
    destruct a; simpl; try exact Hinv.
    + simpl in Hoff. apply andb_true_iff in Hoff. destruct Hoff as [_ Hoff].
      apply negb_true_iff in Hoff. rewrite Hoff in Hinv. subst l.
      unfold SignUp.onSignUpPress. destruct (SignUp.isLoaded s); simpl; [reflexivity|].
      now rewrite Hoff.
    + simpl in Hoff. apply andb_true_iff in Hoff. destruct Hoff as [_ Hoff].
      apply negb_true_iff in Hoff. rewrite Hoff in Hinv. subst l.
      unfold SignUp.onVerifyPress. destruct (SignUp.isLoaded s); simpl; [reflexivity|].
      now rewrite Hoff.
  - destruct (nth_error l i) as [p|] eqn:Hi; [|discriminate].
    destruct (SignUp.resume p out) as [k|] eqn:Hk; [|discriminate].
    injection Hstep as <-.
    destruct (SignUp.loading s) eqn:El; [|subst l; destruct i; discriminate].
    destruct (one_pending l i p Hinv Hi) as [-> ->].
    destruct p, out; simpl in Hk; try discriminate; injection Hk as <-; simpl;
      rewrite ?El; reflexivity.
Qed.

Lemma signup_run_inv evs : forall w0 w1,
  signup_inv w0 -> SignUp.run w0 evs = Some w1 -> signup_inv w1.
Proof.
  induction evs as [|e evs IH]; intros w0 w1 H0 Hr; simpl in Hr.
  - now injection Hr as <-.
  - destruct (SignUp.step w0 e) as [w2|] eqn:E; [|discriminate].
    exact (IH w2 w1 (signup_step_inv w0 e w2 H0 E) Hr).
Qed.

(** X22: in every state the sign-up screen reaches from its first render,
    over both of its forms, [loading] is true exactly while one call to the
    provider is out and no call is out while it is false: the buttons,
    disabled while loading, never let two submissions overlap. *)
Theorem X22_signup_at_most_one_call es w :
  SignUp.run SignUp.mount es = Some w ->
  length (inflight w) <= 1
  /\ (SignUp.loading (screen w) = true <-> length (inflight w) = 1)
  /\ (SignUp.loading (screen w) = false <-> inflight w = []).
Proof.
  intros Hr.
  assert (H : signup_inv w) by (apply (signup_run_inv es SignUp.mount w); [reflexivity | exact Hr]).
  unfold signup_inv in H. destruct (SignUp.loading (screen w)).
  - rewrite H. repeat split; auto; try discriminate.
    intros E; rewrite E in H; discriminate.
  - rewrite H. simpl. repeat split; auto; discriminate.
Qed.

Lemma signup_step_pending w e w' :
  SignUp.pendingVerification (screen w) = true ->
  SignUp.step w e = Some w' ->
  SignUp.pendingVerification (screen w') = true.
Proof.
  intros Hp Hstep. destruct w as [s l o]; simpl in Hp.
  unfold SignUp.step in Hstep; cbn [screen inflight log] in Hstep.
  destruct e as [|a|i out].
  - injection Hstep as <-. exact Hp.
  - destruct (SignUp.offered s a) eqn:Hoff; [|discriminate]. injection Hstep as <-.
    destruct a; simpl; try exact Hp.
    + unfold SignUp.onSignUpPress. destruct (SignUp.isLoaded s); exact Hp.
    + unfold SignUp.onVerifyPress. destruct (SignUp.isLoaded s); exact Hp.
  - destruct (nth_error l i) as [p|] eqn:Hi; [|discriminate].
    destruct (SignUp.resume p out) as [k|] eqn:Hk; [|discriminate].
    injection Hstep as <-.
    destruct p, out; simpl in Hk; try discriminate; injection Hk as <-; simpl;
      solve [exact Hp | reflexivity].
Qed.

(** X23: once the sign-up screen shows the verification form it never goes
    back: whatever happens afterwards, [pendingVerification] stays true and
    the "Sign Up" button is not on screen. *)
Theorem X23_signup_verification_form_is_final es : forall w w',
  SignUp.pendingVerification (screen w) = true ->
  SignUp.run w es = Some w' ->
  SignUp.pendingVerification (screen w') = true
  /\ SignUp.offered (screen w') SignUp.PressSignUp = false.
Proof.
  induction es as [|e es IH]; intros w w' Hp Hr; simpl in Hr.
  - injection Hr as <-. split; [exact Hp|]. simpl. now rewrite Hp.
  - destruct (SignUp.step w e) as [w2|] eqn:E; [|discriminate].
    exact (IH w2 w' (signup_step_pending w e w2 Hp E) Hr).
Qed.

(** X24: with the provider loaded, pressing "Sign Up" sets [loading] and makes
    one [signUp.create] call with the username, email and password on
    screen.  The verification form appears only when that call and the
    following [prepareEmailAddressVerification] both succeed; if either
    rejects, the sign-up form stays, an "Error" alert shows the message
    chosen from the rejection (fallback "Failed to sign up"), the error is
    logged, and [loading] is false again. *)
Theorem X24_signup_press (w : SignUp.W) :
  SignUp.loading (screen w) = false ->
  SignUp.pendingVerification (screen w) = false ->
  SignUp.isLoaded (screen w) = true ->
  exists w1,
    SignUp.step w (SignUp.User SignUp.PressSignUp) = Some w1
    /\ SignUp.loading (screen w1) = true
    /\ inflight w1
       = (inflight w ++
          [SignUp.Creating (SignUp.username (screen w)) (SignUp.email (screen w))
                           (SignUp.password (screen w))])%list
    /\ (exists w',
          SignUp.run w1 [SignUp.Settle (length (inflight w)) Auth.Resolves;
                         SignUp.Settle (length (inflight w)) Auth.Resolves] = Some w'
          /\ SignUp.pendingVerification (screen w') = true
          /\ SignUp.loading (screen w') = false
          /\ SignUp.router (screen w') = SignUp.router (screen w)
          /\ inflight w' = inflight w
          /\ log w' = log w)
    /\ (forall err,
          exists w',
            SignUp.step w1 (SignUp.Settle (length (inflight w)) (Auth.AuthRejects err))
            = Some w'
            /\ SignUp.pendingVerification (screen w') = false
            /\ SignUp.loading (screen w') = false
            /\ log w' = (log w ++
                         [AlertShown "Error" (Auth.errorMessage err "Failed to sign up");
                          ConsoleError "Sign up error:"])%list)
    /\ (forall err,
          exists w',
            SignUp.run w1 [SignUp.Settle (length (inflight w)) Auth.Resolves;
                           SignUp.Settle (length (inflight w)) (Auth.AuthRejects err)]
            = Some w'
            /\ SignUp.pendingVerification (screen w') = false
            /\ SignUp.loading (screen w') = false
            /\ log w' = (log w ++
                         [AlertShown "Error" (Auth.errorMessage err "Failed to sign up");
                          ConsoleError "Sign up error:"])%list).
Proof.
  intros Hl Hp Hload. destruct w as [s l o]; simpl in *.
  rewrite Hl, Hp; simpl.
  unfold SignUp.onSignUpPress. rewrite Hload; simpl.
  eexists. split; [reflexivity|]. simpl.
  split; [reflexivity|]. split; [reflexivity|].
  split; [|split].
  - rewrite nth_error_snoc; simpl. unfold settled; simpl. rewrite removeAt_snoc.
    rewrite nth_error_snoc; simpl. rewrite removeAt_snoc.
    eexists. split; [reflexivity|]. repeat split.
  - intros err. rewrite nth_error_snoc; simpl. unfold settled; simpl.
    rewrite removeAt_snoc.
    eexists. split; [reflexivity|]. simpl. rewrite <- app_assoc. repeat split. exact Hp.
  - intros err. rewrite nth_error_snoc; simpl. unfold settled; simpl.
    rewrite removeAt_snoc. rewrite nth_error_snoc; simpl. rewrite removeAt_snoc.
    eexists. split; [reflexivity|]. simpl. rewrite <- app_assoc. repeat split. exact Hp.
Qed.

(** X25: with the provider loaded, pressing "Verify Email" sets [loading]
    and sends the code on screen.  When the attempt yields a session and
    [setActive] resolves, the router is told to replace the route by "/" and
    [loading] is false; when the attempt rejects, the verification form stays
    with its code, an "Error" alert shows the message chosen from the
    rejection (fallback "Failed to verify"), and the router is not called. *)
Theorem X25_signup_verify (w : SignUp.W) :
  SignUp.loading (screen w) = false ->
  SignUp.pendingVerification (screen w) = true ->
  SignUp.isLoaded (screen w) = true ->
  exists w1,
    SignUp.step w (SignUp.User SignUp.PressVerify) = Some w1
    /\ SignUp.loading (screen w1) = true
    /\ inflight w1 = (inflight w ++ [SignUp.Attempting (SignUp.code (screen w))])%list
    /\ (forall sid,
          exists w',
            SignUp.run w1 [SignUp.Settle (length (inflight w)) (Auth.SessionCreated sid);
                           SignUp.Settle (length (inflight w)) Auth.Resolves] = Some w'
            /\ SignUp.router (screen w')
               = (SignUp.router (screen w) ++ [Auth.Replace "/"])%list
            /\ SignUp.loading (screen w') = false
            /\ inflight w' = inflight w
            /\ log w' = log w)
    /\ (forall err,
          exists w',
            SignUp.step w1 (SignUp.Settle (length (inflight w)) (Auth.AuthRejects err))
            = Some w'
            /\ SignUp.router (screen w') = SignUp.router (screen w)
            /\ SignUp.pendingVerification (screen w') = true
            /\ SignUp.code (screen w') = SignUp.code (screen w)
            /\ SignUp.loading (screen w') = false
            /\ log w' = (log w ++
                         [AlertShown "Error" (Auth.errorMessage err "Failed to verify");
                          ConsoleError "Verification error:"])%list).
Proof.
  intros Hl Hp Hload. destruct w as [s l o]; simpl in *.
  rewrite Hl, Hp; simpl.
  unfold SignUp.onVerifyPress. rewrite Hload; simpl.
  eexists. split; [reflexivity|]. simpl.
  split; [reflexivity|]. split; [reflexivity|].
  split.
  - intros sid. rewrite nth_error_snoc; simpl. unfold settled; simpl.
    rewrite removeAt_snoc. rewrite nth_error_snoc; simpl. rewrite removeAt_snoc.
    eexists. split; [reflexivity|]. repeat split.
  - intros err. rewrite nth_error_snoc; simpl. unfold settled; simpl.
    rewrite removeAt_snoc.
    eexists. split; [reflexivity|]. simpl. rewrite <- app_assoc. repeat split. exact Hp.
Qed.

(** ** Signing out and deleting the account *)

Lemma Forall_removeAt {P} (Q : P -> Prop) l i : Forall Q l -> Forall Q (removeAt i l).
Proof.
  intros H; revert i; induction H as [|x l Hx Hl IH]; intros [|i]; simpl;
    try constructor; auto.
Qed.

Lemma Forall_snoc {P} (Q : P -> Prop) l x : Forall Q l -> Q x -> Forall Q (l ++ [x]).
Proof. intros Hl Hx. apply Forall_app. split; [exact Hl | constructor; [exact Hx | constructor]]. Qed.

Lemma profile_step_quiet w e w' :
  profile_quiet w -> confirms e = false -> Profile.step w e = Some w' -> profile_quiet w'.
Proof.
  intros [Hr Hd] Hc Hstep. destruct w as [s l o]; simpl in Hr, Hd.
  unfold profile_quiet. unfold Profile.step in Hstep; cbn [screen inflight log] in Hstep.
  destruct e as [a|i c|i out].
  - destruct (Profile.offered s a); [|discriminate]. injection Hstep as <-.
    destruct a as [| |op| |]; simpl; split; auto; apply Forall_snoc; auto; exact I.
  - destruct (nth_error l i) as [p|] eqn:Hi; [|discriminate].
    destruct c; [|discriminate].
    destruct p; simpl in Hstep; try discriminate; injection Hstep as <-; simpl;
      (split; [exact Hr | apply Forall_removeAt, Hd]).
  - destruct (nth_error l i) as [p|] eqn:Hi; [|discriminate].
    exfalso. apply nth_error_In in Hi.
    rewrite Forall_forall in Hd. specialize (Hd p Hi).
    destruct p; simpl in Hstep; try discriminate; exact Hd.
Qed.

(** X26: on the profile screen nothing is asked of the provider and the
    router is not called unless the destructive button of a confirmation
    alert is pressed: after any sequence of events without such a press, the
    router has no call and the only pending entries are open alerts (no
    [signOut()] and no [user.delete()] is out). *)
Theorem X26_profile_nothing_without_confirmation u es : forall w,
  forallb (fun e => negb (confirms e)) es = true ->
  Profile.run (Profile.mount u) es = Some w ->
  Profile.router (screen w) = []
  /\ Forall (fun p => match p with
                      | Profile.SignOutDialog | Profile.DeleteDialog _ => True
                      | _ => False
                      end) (inflight w).
Proof.
  assert (G : forall evs w0 w1,
             profile_quiet w0 ->
             forallb (fun e => negb (confirms e)) evs = true ->
             Profile.run w0 evs = Some w1 -> profile_quiet w1).
  { induction evs as [|e evs IH]; intros w0 w1 H0 Hc Hr; simpl in Hr, Hc.
    - now injection Hr as <-.
    - apply andb_true_iff in Hc. destruct Hc as [Hc1 Hc2].
      apply negb_true_iff in Hc1.
      destruct (Profile.step w0 e) as [w2|] eqn:E; [|discriminate].
      exact (IH w2 w1 (profile_step_quiet w0 e w2 H0 Hc1 E) Hc2 Hr). }
  intros w Hc Hr. apply (G es (Profile.mount u) w); auto.
  split; simpl; constructor.
Qed.

(** X27: "Cancel" on the sign-out alert only closes the alert.  Its "Sign
    Out" button calls [signOut()] and changes nothing yet; when the call
    resolves the settings modal is closed and the router is told to replace
    the route by "/sign-in"; when it rejects, an "Error" alert shows the
    Error's message (or "Failed to sign out"), the modal stays as it is and
    the router is not called. *)
Theorem X27_profile_sign_out (w : Profile.W) i :
  nth_error (inflight w) i = Some Profile.SignOutDialog ->
  Profile.step w (Profile.Choose i Profile.Cancel) = Some (settled i w)
  /\ exists w1,
       Profile.step w (Profile.Choose i Profile.Destructive) = Some w1
       /\ screen w1 = screen w
       /\ log w1 = log w
       /\ inflight w1 = (removeAt i (inflight w) ++ [Profile.SigningOut])%list
       /\ (exists w',
             Profile.step w1 (Profile.Settle (length (inflight w) - 1) Auth.Resolves)
             = Some w'
             /\ Profile.settingsModalVisible (screen w') = false
             /\ Profile.router (screen w')
                = (Profile.router (screen w) ++ [Auth.Replace "/sign-in"])%list
             /\ inflight w' = removeAt i (inflight w)
             /\ log w' = log w)
       /\ (forall err,
             exists w',
               Profile.step w1 (Profile.Settle (length (inflight w) - 1)
                                               (Auth.AuthRejects err)) = Some w'
               /\ screen w' = screen w
               /\ inflight w' = removeAt i (inflight w)
               /\ log w' = (log w ++
                            [AlertShown "Error"
                               (Auth.messageOr err "Failed to sign out")])%list).
Proof.
  intros Hi. destruct w as [s l o]; simpl in *.
  unfold Profile.step; simpl. rewrite Hi; simpl.
  split; [reflexivity|].
  eexists. split; [reflexivity|]. simpl.
  split; [reflexivity|]. split; [reflexivity|]. split; [reflexivity|].
  rewrite <- (removeAt_length l i _ Hi), nth_error_snoc; simpl.
  unfold settled; simpl. rewrite removeAt_snoc.
  split.
  - eexists. split; [reflexivity|]. repeat split.
  - intros err. eexists. split; [reflexivity|]. simpl. destruct s; repeat split.
Qed.

(** X28: the "Delete" button of the delete-account alert reads the user of
    the render the alert was opened in.  With no user, nothing is deleted and
    the screen goes on at once: the modal is closed and the router is told to
    replace the route by "/sign-in".  With a user, [user.delete()] is called;
    when it resolves the same happens, and when it rejects an "Error" alert
    shows the Error's message (or "Failed to delete account"), leaving modal
    and router as they are. *)
Theorem X28_profile_delete_account (w : Profile.W) i r :
  nth_error (inflight w) i = Some (Profile.DeleteDialog r) ->
  (Profile.user r = None ->
   exists w',
     Profile.step w (Profile.Choose i Profile.Destructive) = Some w'
     /\ Profile.settingsModalVisible (screen w') = false
     /\ Profile.router (screen w')
        = (Profile.router (screen w) ++ [Auth.Replace "/sign-in"])%list
     /\ inflight w' = removeAt i (inflight w)
     /\ log w' = log w)
  /\ (forall id,
        Profile.user r = Some id ->
        exists w1,
          Profile.step w (Profile.Choose i Profile.Destructive) = Some w1
          /\ screen w1 = screen w
          /\ log w1 = log w
          /\ inflight w1 = (removeAt i (inflight w) ++ [Profile.Deleting id])%list
          /\ (exists w',
                Profile.step w1 (Profile.Settle (length (inflight w) - 1) Auth.Resolves)
                = Some w'
                /\ Profile.settingsModalVisible (screen w') = false
                /\ Profile.router (screen w')
                   = (Profile.router (screen w) ++ [Auth.Replace "/sign-in"])%list
                /\ inflight w' = removeAt i (inflight w))
          /\ (forall err,
                exists w',
                  Profile.step w1 (Profile.Settle (length (inflight w) - 1)
                                                  (Auth.AuthRejects err)) = Some w'
                  /\ screen w' = screen w
                  /\ inflight w' = removeAt i (inflight w)
                  /\ log w' = (log w ++
                               [AlertShown "Error"
                                  (Auth.messageOr err "Failed to delete account")])%list)).
Proof.
  intros Hi. destruct w as [s l o]; simpl in *.
  unfold Profile.step; simpl. rewrite Hi; simpl.
  unfold Profile.delete_confirmed. split.
  - intros Hu. rewrite Hu. eexists. split; [reflexivity|]. repeat split.
  - intros id Hu. rewrite Hu.
    eexists. split; [reflexivity|]. simpl.
    split; [reflexivity|]. split; [reflexivity|]. split; [reflexivity|].
    rewrite <- (removeAt_length l i _ Hi), nth_error_snoc; simpl.
    unfold settled; simpl. rewrite removeAt_snoc.
    split.
    + eexists. split; [reflexivity|]. repeat split.
    + intros err. eexists. split; [reflexivity|]. simpl. destruct s; repeat split.
Qed.

Lemma X22_witness :
  length (inflight AuthExamples.signup_verifying) <= 1
  /\ (SignUp.loading (screen AuthExamples.signup_verifying) = true
      <-> length (inflight AuthExamples.signup_verifying) = 1)
  /\ (SignUp.loading (screen AuthExamples.signup_verifying) = false
      <-> inflight AuthExamples.signup_verifying = []).
Proof.
  exact (X22_signup_at_most_one_call AuthExamples.signup_verifying_trace
           AuthExamples.signup_verifying eq_refl).
Defined.

Lemma X23_witness :
  exists w',
    SignUp.run AuthExamples.signup_verifying
      [SignUp.User SignUp.PressVerify;
       SignUp.Settle 0 (Auth.AuthRejects (Auth.ErrorInstance "Incorrect code"))] = Some w'
    /\ SignUp.pendingVerification (screen w') = true
    /\ SignUp.offered (screen w') SignUp.PressSignUp = false.
Proof.
  eexists. split; [reflexivity|].
  eapply (X23_signup_verification_form_is_final
            [SignUp.User SignUp.PressVerify;
             SignUp.Settle 0 (Auth.AuthRejects (Auth.ErrorInstance "Incorrect code"))]
            AuthExamples.signup_verifying); reflexivity.
Defined.

Lemma X24_witness :
  exists w1,
    SignUp.step AuthExamples.signup_ready (SignUp.User SignUp.PressSignUp) = Some w1
    /\ inflight w1 = [SignUp.Creating "ann" "ann@example.org" "pw"]
    /\ exists w',
         SignUp.run w1 [SignUp.Settle 0 Auth.Resolves; SignUp.Settle 0 Auth.Resolves]
         = Some w'
         /\ SignUp.pendingVerification (screen w') = true
         /\ SignUp.loading (screen w') = false.
Proof.
  destruct (X24_signup_press AuthExamples.signup_ready eq_refl eq_refl eq_refl)
    as [w1 [H1 [_ [H3 [[w' [H4 [H5 [H6 _]]]] _]]]]].
  exists w1. split; [exact H1|]. split; [exact H3|].
  exists w'. split; [exact H4|]. split; [exact H5 | exact H6].
Defined.

Lemma X25_witness :
  exists w1,
    SignUp.step AuthExamples.signup_verifying (SignUp.User SignUp.PressVerify) = Some w1
    /\ inflight w1 = [SignUp.Attempting "123456"]
    /\ exists w',
         SignUp.run w1 [SignUp.Settle 0 (Auth.SessionCreated (Some "sess_1"));
                        SignUp.Settle 0 Auth.Resolves] = Some w'
         /\ SignUp.router (screen w') = [Auth.Replace "/"]
         /\ SignUp.loading (screen w') = false.
Proof.
  destruct (X25_signup_verify AuthExamples.signup_verifying eq_refl eq_refl eq_refl)
    as [w1 [H1 [_ [H3 [H4 _]]]]].
  destruct (H4 (Some "sess_1")) as [w' [H5 [H6 [H7 _]]]].
  exists w1. split; [exact H1|]. split; [exact H3|].
  exists w'. split; [exact H5|]. split; [exact H6 | exact H7].
Defined.

Lemma X26_witness :
  Profile.router (screen (AuthExamples.profile_delete (Some "user_1"))) = []
  /\ Forall (fun p => match p with
                      | Profile.SignOutDialog | Profile.DeleteDialog _ => True
                      | _ => False
                      end) (inflight (AuthExamples.profile_delete (Some "user_1"))).
Proof.
  exact (X26_profile_nothing_without_confirmation (Some "user_1")
           AuthExamples.profile_delete_trace
           (AuthExamples.profile_delete (Some "user_1")) eq_refl eq_refl).
Defined.

Lemma X27_witness :
  Profile.step (AuthExamples.profile_signout (Some "user_1"))
    (Profile.Choose 0 Profile.Cancel)
  = Some (settled 0 (AuthExamples.profile_signout (Some "user_1")))
  /\ exists w1 w',
       Profile.step (AuthExamples.profile_signout (Some "user_1"))
         (Profile.Choose 0 Profile.Destructive) = Some w1
       /\ inflight w1 = [Profile.SigningOut]
       /\ Profile.step w1 (Profile.Settle 0 Auth.Resolves) = Some w'
       /\ Profile.settingsModalVisible (screen w') = false
       /\ Profile.router (screen w') = [Auth.Replace "/sign-in"].
Proof.
  destruct (X27_profile_sign_out (AuthExamples.profile_signout (Some "user_1")) 0 eq_refl)
    as [Hc [w1 [H1 [_ [_ [H4 [[w' [H5 [H6 [H7 _]]]] _]]]]]]].
  split; [exact Hc|].
  exists w1, w'. split; [exact H1|]. split; [exact H4|]. split; [exact H5|].
  split; [exact H6 | exact H7].
Defined.

Lemma X28_witness :
  exists w',
    Profile.step (AuthExamples.profile_delete None)
      (Profile.Choose 0 Profile.Destructive) = Some w'
    /\ Profile.settingsModalVisible (screen w') = false
    /\ Profile.router (screen w') = [Auth.Replace "/sign-in"]
    /\ inflight w' = []
    /\ log w' = [AlertShown "Delete Account"
                   "Are you sure you want to delete your account? This action cannot be reversed."].
Proof.
  exact (proj1 (X28_profile_delete_account (AuthExamples.profile_delete None) 0
                  _ eq_refl) eq_refl).
Defined.
